(** * Zola application: optimistic asset reconciler, session projector, SSR shim

    Shallow embedding of the root component [App] (state variables, the
    save and delete handlers, [processSession], [handleLogout]) and of the
    Express SSR handler, followed by the properties proved about them.

    Conventions of the embedding.
    - The React state variables of [App] are the fields of the record [App];
      the router location and the chronological log of outside effects
      (console, remote calls, navigation, timers) are two more fields.
    - A handler is a closure of one render: what it reads from the state
      variables by name ([currentUser], [galleryAssets], [deletingAssetId],
      [location.pathname]) comes from the render [r] it was created in, and
      what it writes goes through the setters to the store it runs on.
      A handler invoked from the render that shows the store [s] is the
      handler at [r := s].
    - An [async] function is split at its [await]: the part that runs up to
      the [await], and the part that runs when the awaited promise settles
      (suffix [_resume], or [_background] for a detached task). Where the
      first part only starts the awaited call ([processSession],
      [handleLogout]) the function is kept whole and runs on the store
      found when the promise settles.
    - What the outside world answers (a settled promise, a clock reading, a
      stored marker) is an argument of the function that consumes it. *)

From Stdlib Require Import String Ascii List ZArith Bool Lia.
From Stdlib Require Import DecimalString DecimalZ.
Import ListNotations.
Local Open Scope string_scope.

(* ------------------------------------------------------------------ *)
(** * JavaScript values and string primitives *)

(** An [Error] object; only [message] is ever read by the code. *)
Record JsError : Type := mkError { message : string }.

(** How an awaited promise (or a call that may throw) ends. *)
Inductive Settled (A : Type) : Type :=
| Fulfilled (a : A)
| Rejected (e : JsError).

Arguments Fulfilled {A} a.
Arguments Rejected {A} e.

(** Truthiness of a string, and of a [string | null] value. *)
Definition truthy_string (s : string) : bool := negb (s =? "").

Definition truthy (o : option string) : bool :=
  match o with
  | Some s => truthy_string s
  | None => false
  end.

(** [a || b] where [a] is [string | null | undefined] and [b] a string. *)
Definition js_or (a : option string) (b : string) : string :=
  if truthy a then match a with Some s => s | None => b end else b.

(** [a ?? b] *)
Definition nullish (a : option string) (b : string) : string :=
  match a with
  | Some s => s
  | None => b
  end.

(** Template interpolation of an integral Number (a time value is an
    integer of magnitude below 1e21, printed in plain decimal). *)
Definition Number_toString (z : Z) : string :=
  NilZero.string_of_int (Z.to_int z).

(** [s.split(sep)] for a one-character separator. *)
Fixpoint split (sep : ascii) (s : string) : list string :=
  match s with
  | EmptyString => [EmptyString]
  | String c rest =>
      if Ascii.eqb c sep then EmptyString :: split sep rest
      else match split sep rest with
           | [] => [String c EmptyString]
           | piece :: pieces => String c piece :: pieces
           end
  end.

(** The tail of a string from code unit [n] on. *)
Fixpoint drop (n : nat) (s : string) : string :=
  match n, s with
  | O, _ => s
  | S _, EmptyString => EmptyString
  | S m, String _ rest => drop m rest
  end.

(** [GetSubstitution] of ECMA-262 for a string pattern (no captures, no
    named groups): in the replacement text [$$] is a dollar sign, [$&] the
    matched text, [$`] the text before the match, [$'] the text after it;
    any other [$] stands for itself. *)
Fixpoint GetSubstitution (matched preceding following replacement : string)
  : string :=
  match replacement with
  | EmptyString => EmptyString
  | String c tl =>
      if Ascii.eqb c "$" then
        match tl with
        | EmptyString => String c EmptyString
        | String d tl' =>
            if Ascii.eqb d "$" then
              String "$" (GetSubstitution matched preceding following tl')
            else if Ascii.eqb d "&" then
              matched ++ GetSubstitution matched preceding following tl'
            else if Ascii.eqb d "`" then
              preceding ++ GetSubstitution matched preceding following tl'
            else if Ascii.eqb d "'" then
              following ++ GetSubstitution matched preceding following tl'
            else
              String c (GetSubstitution matched preceding following tl)
        end
      else String c (GetSubstitution matched preceding following tl)
  end.

(** [str.replace(searchString, replaceValue)] with both arguments strings:
    the first occurrence only, the replacement text expanded by
    [GetSubstitution]; the string itself when there is no occurrence. *)
Definition String_replace (str searchString replaceValue : string) : string :=
  match index 0 searchString str with
  | None => str
  | Some pos =>
      let preceding := substring 0 pos str in
      let following := drop (pos + String.length searchString) str in
      preceding
        ++ GetSubstitution searchString preceding following replaceValue
        ++ following
  end.

(** No dollar sign occurs in the string, so [GetSubstitution] has nothing
    to expand in it. *)
Fixpoint dollar_free (s : string) : bool :=
  match s with
  | EmptyString => true
  | String c rest => negb (Ascii.eqb c "$") && dollar_free rest
  end.

(** [str.includes(searchString)] *)
Definition includes (searchString str : string) : bool :=
  match index 0 searchString str with
  | Some _ => true
  | None => false
  end.

(* ------------------------------------------------------------------ *)
(** * Data model (the shapes built and read in [App]) *)

Module User.
Record t : Type := mk {
  id : string;
  email : string;
  username : string;
  avatar : option string
}.
End User.

Module GeneratedAsset.
Record t : Type := mk {
  id : string;
  user_id : string;
  image_url : string;
  display_url : string;
  source_feature : string;
  created_at : string
}.
End GeneratedAsset.

Inductive AssetType : Type := individual | composed.

Module CollectionAsset.
Record t : Type := mk {
  id : string;
  user_id : string;
  image_url : string;
  display_url : string;
  asset_type : AssetType;
  item_name : string;
  item_category : string;
  created_at : string
}.
End CollectionAsset.

(** The argument of [handleSaveToCollection]. *)
Module AssetData.
Record t : Type := mk {
  imageUrl : string;
  asset_type : AssetType;
  item_name : string;
  item_category : string
}.
End AssetData.

(** The identity provider's session, as far as [processSession] reads it. *)
Module SessionUser.
Record t : Type := mk {
  id : string;
  email : option string
}.
End SessionUser.

Module Session.
Record t : Type := mk { user : option SessionUser.t }.
End Session.

(** A row of [profiles], columns [username, avatar_url], both nullable. *)
Module Profile.
Record t : Type := mk {
  username : option string;
  avatar_url : option string
}.
End Profile.

(** The [{ data, error }] result of the profile query. *)
Module ProfileResponse.
Record t : Type := mk {
  data : option Profile.t;
  error : option JsError
}.
End ProfileResponse.

(** The route table [PATHS] of [constants/paths], which the handlers only
    compare and navigate to; its three entries used here are parameters. *)
Record Paths : Type := mkPaths {
  LANDING : string;
  AUTH : string;
  HOME : string
}.

(** The two clock reads of a save: [Date.now()] and
    [new Date().toISOString()]. *)
Record Clock : Type := mkClock {
  Date_now : Z;
  Date_toISOString : string
}.

(* ------------------------------------------------------------------ *)
(** * Outside effects, in the order they are issued *)

Inductive RemoteCall : Type :=
| SaveAsset (userId : string) (base64Data : option string) (feature : string)
| SaveAssetToCollection (userId : string) (base64Data : option string)
    (asset_type : AssetType) (item_name item_category : string)
| DeleteAsset (assetId image_url : string)
| DeleteAssetFromCollection (assetId image_url : string)
| GetAssetsForUser (userId : string)
| GetAssetsFromCollection (userId : string)
| SelectProfile (userId : string)
| SignOut.

Inductive Effect : Type :=
| ConsoleError (label : string) (detail : option JsError)
| ConsoleWarn (label : string) (detail : string)
| Remote (call : RemoteCall)
| Navigate (to : string) (replace : bool)
| SetTimeout_tour (delay : Z).

Definition is_remote (e : Effect) : bool :=
  match e with
  | Remote _ => true
  | _ => false
  end.

Definition is_remote_delete (e : Effect) : bool :=
  match e with
  | Remote (DeleteAsset _ _) => true
  | Remote (DeleteAssetFromCollection _ _) => true
  | _ => false
  end.

Definition is_navigate (e : Effect) : bool :=
  match e with
  | Navigate _ _ => true
  | _ => false
  end.

(* ------------------------------------------------------------------ *)
(** * The store: state variables of [App], router location, effect log *)

Record App : Type := mkApp {
  currentUser : option User.t;
  isTourActive : bool;
  loading : bool;
  galleryAssets : list GeneratedAsset.t;
  isGalleryLoading : bool;
  galleryError : option string;
  deletingAssetId : option string;
  collectionAssets : list CollectionAsset.t;
  isCollectionLoading : bool;
  collectionError : option string;
  deletingCollectionAssetId : option string;
  pathname : string;
  trace : list Effect
}.

(** The argument of a React state setter: a value or an updater. *)
Inductive SetStateAction (A : Type) : Type :=
| Value (v : A)
| Updater (f : A -> A).

Arguments Value {A} v.
Arguments Updater {A} f.

Definition apply_action {A : Type} (a : SetStateAction A) (prev : A) : A :=
  match a with
  | Value v => v
  | Updater f => f prev
  end.

(** ** A state monad whose exceptions keep the store *)

Inductive Result (A : Type) : Type :=
| Ok (a : A) (s : App)
| Thrown (e : JsError) (s : App).

Arguments Ok {A} a s.
Arguments Thrown {A} e s.

Definition M (A : Type) : Type := App -> Result A.

Definition ret {A : Type} (a : A) : M A := fun s => Ok a s.

Definition bind {A B : Type} (m : M A) (k : A -> M B) : M B :=
  fun s =>
    match m s with
    | Ok a s' => k a s'
    | Thrown e s' => Thrown e s'
    end.

Definition throw {A : Type} (e : JsError) : M A := fun s => Thrown e s.

Definition try_catch {A : Type} (body : M A) (handler : JsError -> M A) : M A :=
  fun s =>
    match body s with
    | Ok a s' => Ok a s'
    | Thrown e s' => handler e s'
    end.

Definition try_finally {A : Type} (body : M A) (finalizer : M unit) : M A :=
  fun s =>
    match body s with
    | Ok a s' =>
        match finalizer s' with
        | Ok _ s'' => Ok a s''
        | Thrown e s'' => Thrown e s''
        end
    | Thrown e s' =>
        match finalizer s' with
        | Ok _ s'' => Thrown e s''
        | Thrown e' s'' => Thrown e' s''
        end
    end.

(** [await p], and a call that may throw, once its outcome is known. *)
Definition await {A : Type} (p : Settled A) : M A :=
  match p with
  | Fulfilled a => ret a
  | Rejected e => throw e
  end.

Definition modify (f : App -> App) : M unit := fun s => Ok tt (f s).

Declare Scope js_scope.
Delimit Scope js_scope with js.
Notation "x <- c1 ;; c2" := (bind c1 (fun x => c2))
  (at level 61, c1 at next level, right associativity) : js_scope.
Notation "c1 ;; c2" := (bind c1 (fun _ => c2))
  (at level 61, right associativity) : js_scope.
Local Open Scope js_scope.

(** The store a computation leaves, whether it returned or threw. *)
Definition store_of {A : Type} (r : Result A) : App :=
  match r with
  | Ok _ s => s
  | Thrown _ s => s
  end.

Definition returned {A : Type} (r : Result A) : bool :=
  match r with
  | Ok _ _ => true
  | Thrown _ _ => false
  end.

(** ** Setters and effects *)

Definition setCurrentUser (a : SetStateAction (option User.t)) : M unit :=
  modify (fun s =>
    mkApp (apply_action a (currentUser s)) (isTourActive s) (loading s)
      (galleryAssets s) (isGalleryLoading s) (galleryError s)
      (deletingAssetId s) (collectionAssets s) (isCollectionLoading s)
      (collectionError s) (deletingCollectionAssetId s) (pathname s)
      (trace s)).

Definition setGalleryAssets (a : SetStateAction (list GeneratedAsset.t))
  : M unit :=
  modify (fun s =>
    mkApp (currentUser s) (isTourActive s) (loading s)
      (apply_action a (galleryAssets s)) (isGalleryLoading s) (galleryError s)
      (deletingAssetId s) (collectionAssets s) (isCollectionLoading s)
      (collectionError s) (deletingCollectionAssetId s) (pathname s)
      (trace s)).

Definition setIsGalleryLoading (a : SetStateAction bool) : M unit :=
  modify (fun s =>
    mkApp (currentUser s) (isTourActive s) (loading s)
      (galleryAssets s) (apply_action a (isGalleryLoading s)) (galleryError s)
      (deletingAssetId s) (collectionAssets s) (isCollectionLoading s)
      (collectionError s) (deletingCollectionAssetId s) (pathname s)
      (trace s)).

Definition setGalleryError (a : SetStateAction (option string)) : M unit :=
  modify (fun s =>
    mkApp (currentUser s) (isTourActive s) (loading s)
      (galleryAssets s) (isGalleryLoading s) (apply_action a (galleryError s))
      (deletingAssetId s) (collectionAssets s) (isCollectionLoading s)
      (collectionError s) (deletingCollectionAssetId s) (pathname s)
      (trace s)).

Definition setDeletingAssetId (a : SetStateAction (option string)) : M unit :=
  modify (fun s =>
    mkApp (currentUser s) (isTourActive s) (loading s)
      (galleryAssets s) (isGalleryLoading s) (galleryError s)
      (apply_action a (deletingAssetId s)) (collectionAssets s)
      (isCollectionLoading s) (collectionError s)
      (deletingCollectionAssetId s) (pathname s) (trace s)).

Definition setCollectionAssets (a : SetStateAction (list CollectionAsset.t))
  : M unit :=
  modify (fun s =>
    mkApp (currentUser s) (isTourActive s) (loading s)
      (galleryAssets s) (isGalleryLoading s) (galleryError s)
      (deletingAssetId s) (apply_action a (collectionAssets s))
      (isCollectionLoading s) (collectionError s)
      (deletingCollectionAssetId s) (pathname s) (trace s)).

Definition setIsCollectionLoading (a : SetStateAction bool) : M unit :=
  modify (fun s =>
    mkApp (currentUser s) (isTourActive s) (loading s)
      (galleryAssets s) (isGalleryLoading s) (galleryError s)
      (deletingAssetId s) (collectionAssets s)
      (apply_action a (isCollectionLoading s)) (collectionError s)
      (deletingCollectionAssetId s) (pathname s) (trace s)).

Definition setCollectionError (a : SetStateAction (option string)) : M unit :=
  modify (fun s =>
    mkApp (currentUser s) (isTourActive s) (loading s)
      (galleryAssets s) (isGalleryLoading s) (galleryError s)
      (deletingAssetId s) (collectionAssets s) (isCollectionLoading s)
      (apply_action a (collectionError s)) (deletingCollectionAssetId s)
      (pathname s) (trace s)).

Definition setDeletingCollectionAssetId (a : SetStateAction (option string))
  : M unit :=
  modify (fun s =>
    mkApp (currentUser s) (isTourActive s) (loading s)
      (galleryAssets s) (isGalleryLoading s) (galleryError s)
      (deletingAssetId s) (collectionAssets s) (isCollectionLoading s)
      (collectionError s) (apply_action a (deletingCollectionAssetId s))
      (pathname s) (trace s)).

(** Appends one effect to the log. *)
Definition emit (e : Effect) : M unit :=
  modify (fun s =>
    mkApp (currentUser s) (isTourActive s) (loading s)
      (galleryAssets s) (isGalleryLoading s) (galleryError s)
      (deletingAssetId s) (collectionAssets s) (isCollectionLoading s)
      (collectionError s) (deletingCollectionAssetId s) (pathname s)
      (trace s ++ [e])).

Definition console_error (label : string) (detail : option JsError) : M unit :=
  emit (ConsoleError label detail).

Definition console_warn (label detail : string) : M unit :=
  emit (ConsoleWarn label detail).

(** Starts a remote call; its promise settles later. *)
Definition remote (c : RemoteCall) : M unit := emit (Remote c).

(** [navigate(to, { replace })]: the router moves to [to]. *)
Definition navigate (to : string) (replace : bool) : M unit :=
  modify (fun s =>
    mkApp (currentUser s) (isTourActive s) (loading s)
      (galleryAssets s) (isGalleryLoading s) (galleryError s)
      (deletingAssetId s) (collectionAssets s) (isCollectionLoading s)
      (collectionError s) (deletingCollectionAssetId s) to
      (trace s ++ [Navigate to replace])).

(* ------------------------------------------------------------------ *)
(** * The optimistic reconciler: save *)

(** The placeholder identifiers, [`temp_${Date.now()}`] and
    [`temp_collection_${Date.now()}`]. *)
Definition gallery_tempId (clock : Clock) : string :=
  "temp_" ++ Number_toString (Date_now clock).

Definition collection_tempId (clock : Clock) : string :=
  "temp_collection_" ++ Number_toString (Date_now clock).

(** The [tempAsset] object literals. *)
Definition gallery_tempAsset (user : User.t) (clock : Clock)
  (generatedImage : string) : GeneratedAsset.t :=
  GeneratedAsset.mk (gallery_tempId clock) (User.id user)
    "optimistic_update.png" generatedImage "virtual_photoshoot"
    (Date_toISOString clock).

Definition collection_tempAsset (user : User.t) (clock : Clock)
  (assetData : AssetData.t) : CollectionAsset.t :=
  CollectionAsset.mk (collection_tempId clock) (User.id user)
    "optimistic_update.png" (AssetData.imageUrl assetData)
    (AssetData.asset_type assetData) (AssetData.item_name assetData)
    (AssetData.item_category assetData) (Date_toISOString clock).

(** [dataUrl.split(',')[1]]: [undefined] when there is no comma. *)
Definition base64_of (dataUrl : string) : option string :=
  nth_error (split "," dataUrl) 1.

(** [handleAssetSaved], up to the [await] of the detached task: the
    guard, the optimistic prepend, then the start of the remote write. *)
Definition handleAssetSaved (r : App) (clock : Clock) (generatedImage : string)
  : M unit :=
  match currentUser r with
  | None =>
      console_error "Cannot save asset without a logged in user." None ;;
      throw (mkError "You must be logged in to save an image.")
  | Some user =>
      let tempAsset := gallery_tempAsset user clock generatedImage in
      setGalleryAssets (Updater (fun prevAssets => tempAsset :: prevAssets)) ;;
      remote (SaveAsset (User.id user) (base64_of generatedImage)
                "virtual_photoshoot")
  end.

(** The detached task of [handleAssetSaved] once [saveAsset] settles. *)
Definition handleAssetSaved_background (clock : Clock)
  (saveAsset : Settled GeneratedAsset.t) : M unit :=
  let tempId := gallery_tempId clock in
  try_catch
    (realAsset <- await saveAsset ;;
     setGalleryAssets (Updater (fun prevAssets =>
       map (fun asset =>
              if GeneratedAsset.id asset =? tempId then realAsset else asset)
           prevAssets)))
    (fun error =>
       console_error "Failed to save asset in background:" (Some error) ;;
       setGalleryAssets (Updater (fun prevAssets =>
         filter (fun asset => negb (GeneratedAsset.id asset =? tempId))
                prevAssets))).

(** [handleSaveToCollection], up to the [await] of the detached task. *)
Definition handleSaveToCollection (r : App) (clock : Clock)
  (assetData : AssetData.t) : M unit :=
  match currentUser r with
  | None =>
      console_error "Cannot save to collection without a logged in user."
        None ;;
      throw (mkError "You must be logged in to save an asset.")
  | Some user =>
      let tempAsset := collection_tempAsset user clock assetData in
      setCollectionAssets
        (Updater (fun prevAssets => tempAsset :: prevAssets)) ;;
      remote (SaveAssetToCollection (User.id user)
                (base64_of (AssetData.imageUrl assetData))
                (AssetData.asset_type assetData)
                (AssetData.item_name assetData)
                (AssetData.item_category assetData))
  end.

(** The detached task of [handleSaveToCollection] once
    [saveAssetToCollection] settles. *)
Definition handleSaveToCollection_background (clock : Clock)
  (saveAssetToCollection : Settled CollectionAsset.t) : M unit :=
  let tempId := collection_tempId clock in
  try_catch
    (realAsset <- await saveAssetToCollection ;;
     setCollectionAssets (Updater (fun prevAssets =>
       map (fun asset =>
              if CollectionAsset.id asset =? tempId then realAsset else asset)
           prevAssets)))
    (fun error =>
       console_error "Failed to save asset to collection in background:"
         (Some error) ;;
       setCollectionAssets (Updater (fun prevAssets =>
         filter (fun asset => negb (CollectionAsset.id asset =? tempId))
                prevAssets))).

(* ------------------------------------------------------------------ *)
(** * The optimistic reconciler: delete *)

(** [handleDeleteAsset] up to [await deleteAsset(...)]. *)
Definition handleDeleteAsset (r : App) (assetToDelete : GeneratedAsset.t)
  : M unit :=
  if truthy (deletingAssetId r) then ret tt
  else
    setGalleryAssets (Updater (fun prev =>
      filter (fun asset =>
                negb (GeneratedAsset.id asset
                        =? GeneratedAsset.id assetToDelete))
             prev)) ;;
    setDeletingAssetId (Value (Some (GeneratedAsset.id assetToDelete))) ;;
    remote (DeleteAsset (GeneratedAsset.id assetToDelete)
              (GeneratedAsset.image_url assetToDelete)).

(** [handleDeleteAsset] from the moment [deleteAsset] settles;
    [originalAssets] is the copy of the render's list taken before the
    [await]. *)
Definition handleDeleteAsset_resume (r : App) (deleteAsset : Settled unit)
  : M unit :=
  let originalAssets := galleryAssets r in
  try_finally
    (try_catch
       (await deleteAsset)
       (fun error =>
          console_error "Failed to delete asset:" (Some error) ;;
          setGalleryAssets (Value originalAssets) ;;
          setGalleryError
            (Value (Some "Could not delete the asset. Please try again."))))
    (setDeletingAssetId (Value None)).

(** [handleDeleteAssetFromCollection] up to its [await]. *)
Definition handleDeleteAssetFromCollection (r : App)
  (assetToDelete : CollectionAsset.t) : M unit :=
  if truthy (deletingCollectionAssetId r) then ret tt
  else
    setCollectionAssets (Updater (fun prev =>
      filter (fun asset =>
                negb (CollectionAsset.id asset
                        =? CollectionAsset.id assetToDelete))
             prev)) ;;
    setDeletingCollectionAssetId
      (Value (Some (CollectionAsset.id assetToDelete))) ;;
    remote (DeleteAssetFromCollection (CollectionAsset.id assetToDelete)
              (CollectionAsset.image_url assetToDelete)).

(** [handleDeleteAssetFromCollection] from the moment the remote delete
    settles. *)
Definition handleDeleteAssetFromCollection_resume (r : App)
  (deleteAssetFromCollection : Settled unit) : M unit :=
  let originalAssets := collectionAssets r in
  try_finally
    (try_catch
       (await deleteAssetFromCollection)
       (fun error =>
          console_error "Failed to delete asset from collection:"
            (Some error) ;;
          setCollectionAssets (Value originalAssets) ;;
          setCollectionError
            (Value (Some "Could not delete the asset. Please try again."))))
    (setDeletingCollectionAssetId (Value None)).

(* ------------------------------------------------------------------ *)
(** * Gallery and collection refresh *)

(** [fetchGalleryAssets] up to [await getAssetsForUser(userId)]. *)
Definition fetchGalleryAssets (r : App) (userId : string)
  (forceRefresh : bool) : M unit :=
  if negb (truthy_string userId)
     || ((0 <? List.length (galleryAssets r))%nat && negb forceRefresh)
  then ret tt
  else
    setIsGalleryLoading (Value true) ;;
    setGalleryError (Value None) ;;
    remote (GetAssetsForUser userId).

Definition fetchGalleryAssets_resume
  (getAssetsForUser : Settled (list GeneratedAsset.t)) : M unit :=
  try_finally
    (try_catch
       (userAssets <- await getAssetsForUser ;;
        setGalleryAssets (Value userAssets))
       (fun err =>
          console_error "Failed to fetch assets in App.tsx:" (Some err) ;;
          setGalleryError
            (Value (Some
               "Could not load your gallery. Please try again later."))))
    (setIsGalleryLoading (Value false)).

(** [fetchCollectionAssets] up to its [await]. *)
Definition fetchCollectionAssets (r : App) (userId : string)
  (forceRefresh : bool) : M unit :=
  if negb (truthy_string userId)
     || ((0 <? List.length (collectionAssets r))%nat && negb forceRefresh)
  then ret tt
  else
    setIsCollectionLoading (Value true) ;;
    setCollectionError (Value None) ;;
    remote (GetAssetsFromCollection userId).

Definition fetchCollectionAssets_resume
  (getAssetsFromCollection : Settled (list CollectionAsset.t)) : M unit :=
  try_finally
    (try_catch
       (userAssets <- await getAssetsFromCollection ;;
        setCollectionAssets (Value userAssets))
       (fun err =>
          console_error "Failed to fetch collection assets in App.tsx:"
            (Some err) ;;
          setCollectionError
            (Value (Some
               "Could not load your asset collection. Please try again later."))))
    (setIsCollectionLoading (Value false)).

(* ------------------------------------------------------------------ *)
(** * The session projector and logout *)

Definition setIsTourActive (a : SetStateAction bool) : M unit :=
  modify (fun s =>
    mkApp (currentUser s) (apply_action a (isTourActive s)) (loading s)
      (galleryAssets s) (isGalleryLoading s) (galleryError s)
      (deletingAssetId s) (collectionAssets s) (isCollectionLoading s)
      (collectionError s) (deletingCollectionAssetId s) (pathname s)
      (trace s)).

(** The callback of the timer that [processSession] sets for a first
    login. *)
Definition tour_timer_callback : M unit := setIsTourActive (Value true).

(** What the outside answers while one session event is processed: the
    awaited profile query, and the read of the tour marker in
    [localStorage] (a call that can throw). *)
Record SessionEnv : Type := mkSessionEnv {
  profiles_maybeSingle : Settled ProfileResponse.t;
  localStorage_getItem : Settled (option string)
}.

(** [session?.user] *)
Definition session_user (session : option Session.t) : option SessionUser.t :=
  match session with
  | Some se => Session.user se
  | None => None
  end.

(** [profile?.username] and [profile?.avatar_url] *)
Definition profile_username (profile : option Profile.t) : option string :=
  match profile with
  | Some p => Profile.username p
  | None => None
  end.

Definition profile_avatar_url (profile : option Profile.t) : option string :=
  match profile with
  | Some p => Profile.avatar_url p
  | None => None
  end.

(** The [user] object literal of [processSession]. *)
Definition user_of_session (su : SessionUser.t) (profile : option Profile.t)
  : User.t :=
  let userEmail := nullish (SessionUser.email su) "" in
  User.mk (SessionUser.id su) userEmail
    (js_or (Some (js_or (profile_username profile) userEmail)) "ghost_user")
    (profile_avatar_url profile).

Section Routes.

Variable PATHS : Paths.

(** [location.pathname === PATHS.LANDING || location.pathname === PATHS.AUTH] *)
Definition isPublicPath (r : App) : bool :=
  (pathname r =? LANDING PATHS) || (pathname r =? AUTH PATHS).

(** The statements shared by the signed-out branch and the [catch] block. *)
Definition project_logged_out (r : App) : M unit :=
  setCurrentUser (Value None) ;;
  setGalleryAssets (Value []) ;;
  setCollectionAssets (Value []) ;;
  if negb (isPublicPath r) then navigate (LANDING PATHS) true else ret tt.

(** The [try] block of [processSession]. Before the [await] it only starts
    the profile query, so it is run on the store found when the query
    settles. *)
Definition processSession_try (r : App) (session : option Session.t)
  (env : SessionEnv) : M unit :=
  match session_user session with
  | Some su =>
      remote (SelectProfile (SessionUser.id su)) ;;
      response <- await (profiles_maybeSingle env) ;;
      match ProfileResponse.error response with
      | Some profileError =>
          console_warn "Could not fetch user profile on auth change:"
            (message profileError)
      | None => ret tt
      end ;;
      setCurrentUser
        (Value (Some (user_of_session su (ProfileResponse.data response)))) ;;
      fetchGalleryAssets r (SessionUser.id su) false ;;
      fetchCollectionAssets r (SessionUser.id su) false ;;
      (if isPublicPath r then navigate (HOME PATHS) true else ret tt) ;;
      tourCompleted <- await (localStorage_getItem env) ;;
      if negb (truthy tourCompleted) then emit (SetTimeout_tour 500)
      else ret tt
  | None => project_logged_out r
  end.

Definition processSession (r : App) (session : option Session.t)
  (env : SessionEnv) : M unit :=
  try_catch
    (processSession_try r session env)
    (fun error =>
       console_error "Error in session processing:" (Some error) ;;
       project_logged_out r).

(** [handleLogout]; [signOut] is the settled result [{ error }] of
    [supabase.auth.signOut()]. Before the [await] it only starts the call. *)
Definition handleLogout (signOut : Settled (option JsError)) : M unit :=
  remote SignOut ;;
  error <- await signOut ;;
  match error with
  | Some e => console_error "Error logging out:" (Some e)
  | None => ret tt
  end ;;
  setCurrentUser (Value None) ;;
  setGalleryAssets (Value []) ;;
  setCollectionAssets (Value []) ;;
  navigate (LANDING PATHS) false.

End Routes.

(* ------------------------------------------------------------------ *)
(** * The SSR handler of [api/index.ts] *)

Module Ssr.

Record Response : Type := mkResponse {
  status : Z;
  headers : list (string * string);
  body : string
}.

(** What the handler obtains from outside: the template read from disk, the
    imported [render] function (each may throw), and [render] itself, which
    maps the request URL to the application HTML or rejects. *)
Record Env : Type := mkEnv {
  readFileSync_template : Settled string;
  import_render : Settled (string -> Settled string)
}.

Definition ssr_outlet : string := "<!--ssr-outlet-->".

Definition and_then {A B : Type} (p : Settled A) (k : A -> Settled B)
  : Settled B :=
  match p with
  | Fulfilled a => k a
  | Rejected e => Rejected e
  end.

(** The [try] block: the HTML handed to [res.end], or what was thrown. *)
Definition render_page (env : Env) (originalUrl : string) : Settled string :=
  and_then (readFileSync_template env) (fun template =>
  and_then (import_render env) (fun render =>
  and_then (render originalUrl) (fun appHtml =>
  Fulfilled (String_replace template ssr_outlet appHtml)))).

(** The handler: the response sent and what it wrote to the console. *)
Definition handler (env : Env) (originalUrl : string)
  : Response * list Effect :=
  match render_page env originalUrl with
  | Fulfilled html =>
      (mkResponse 200 [("Content-Type", "text/html")] html, [])
  | Rejected e =>
      (mkResponse 500 [] (message e), [ConsoleError "SSR Error:" (Some e)])
  end.

End Ssr.

(* ------------------------------------------------------------------ *)
(** * The display name in the words of the specification *)

(** The email when it is non-empty, otherwise the fixed default. *)
Definition email_or_default (email : option string) : string :=
  match email with
  | Some (String c rest) => String c rest
  | _ => "ghost_user"
  end.

(** The profile's username when a profile record with a non-empty username
    exists; otherwise the email when non-empty; otherwise the default. *)
Definition display_name (profile : option Profile.t) (email : option string)
  : string :=
  match profile with
  | Some (Profile.mk (Some (String c rest)) _) => String c rest
  | _ => email_or_default email
  end.

(* ------------------------------------------------------------------ *)
(** * Concrete stores and inputs used in examples *)

Definition sample_paths : Paths := mkPaths "/" "/auth" "/dashboard".

Definition alice : User.t :=
  User.mk "u-1" "alice@example.com" "alice" None.

(** A signed-in store with empty lists, showing [path]. *)
Definition signed_in_at (path : string) : App :=
  mkApp (Some alice) false false [] false None None [] false None None
    path [].

(** A signed-out store with empty lists, showing [path]. *)
Definition signed_out_at (path : string) : App :=
  mkApp None false false [] false None None [] false None None path [].

Definition clock_1000 : Clock := mkClock 1000 "1970-01-01T00:00:01.000Z".

Definition image_a : string := "data:image/png;base64,AAAA".
Definition image_b : string := "data:image/png;base64,BBBB".

Definition asset_data_a : AssetData.t :=
  AssetData.mk image_a individual "scarf" "accessories".

Definition asset_data_b : AssetData.t :=
  AssetData.mk image_b composed "coat" "outerwear".

Definition network_down : JsError := mkError "Failed to fetch".

(** Assets as the remote store returns them. *)
Definition stored_b : GeneratedAsset.t :=
  GeneratedAsset.mk "7f3c" "u-1" "u-1/7f3c.png" "https://cdn/u-1/7f3c.png"
    "virtual_photoshoot" "1970-01-01T00:00:02.000Z".

Definition stored_collection_b : CollectionAsset.t :=
  CollectionAsset.mk "9a1e" "u-1" "u-1/9a1e.png" "https://cdn/u-1/9a1e.png"
    composed "coat" "outerwear" "1970-01-01T00:00:02.000Z".

(** The store after one save of [image_a] at [clock_1000], its remote write
    still pending. *)
Definition one_pending_save : App :=
  store_of (handleAssetSaved (signed_in_at "/dashboard") clock_1000 image_a
              (signed_in_at "/dashboard")).

Definition one_pending_collection_save : App :=
  store_of (handleSaveToCollection (signed_in_at "/dashboard") clock_1000
              asset_data_a (signed_in_at "/dashboard")).

(** A gallery of two stored assets, shown on the gallery page. *)
Definition stored_a : GeneratedAsset.t :=
  GeneratedAsset.mk "41d0" "u-1" "u-1/41d0.png" "https://cdn/u-1/41d0.png"
    "virtual_photoshoot" "1970-01-01T00:00:00.500Z".

Definition stored_collection_a : CollectionAsset.t :=
  CollectionAsset.mk "c2b7" "u-1" "u-1/c2b7.png" "https://cdn/u-1/c2b7.png"
    individual "scarf" "accessories" "1970-01-01T00:00:00.500Z".

Definition two_assets : App :=
  mkApp (Some alice) false false [stored_b; stored_a] false None None
    [stored_collection_b; stored_collection_a] false None None
    "/gallery" [].

(** A session of a user with an email, and the outside answers used in the
    examples. *)
Definition session_alice : option Session.t :=
  Some (Session.mk (Some (SessionUser.mk "u-1" (Some "alice@example.com")))).

Definition env_query_rejects : SessionEnv :=
  mkSessionEnv (Rejected network_down) (Fulfilled None).

Definition env_profile_error : SessionEnv :=
  mkSessionEnv
    (Fulfilled (ProfileResponse.mk None (Some (mkError "permission denied"))))
    (Fulfilled (Some "true")).

(** An SSR environment whose page contains a price tier written with
    dollar signs. *)
Definition template_root : string := "<div id='root'><!--ssr-outlet--></div>".

Definition render_price_tier (url : string) : Settled string :=
  Fulfilled "<span>$$$</span>".

Definition env_price_tier : Ssr.Env :=
  Ssr.mkEnv (Fulfilled template_root) (Fulfilled render_price_tier).

Definition render_plain (url : string) : Settled string :=
  Fulfilled ("<a href='" ++ url ++ "'>home</a>").

Definition env_plain : Ssr.Env :=
  Ssr.mkEnv (Fulfilled template_root) (Fulfilled render_plain).

Definition env_no_template : Ssr.Env :=
  Ssr.mkEnv (Rejected (mkError "ENOENT: no such file or directory"))
    (Fulfilled render_plain).

(** The store while the delete of [stored_a] is in flight, and the same
    for the collection. *)
Definition delete_in_flight : App :=
  store_of (handleDeleteAsset two_assets stored_a two_assets).

Definition collection_delete_in_flight : App :=
  store_of (handleDeleteAssetFromCollection two_assets stored_collection_a
              two_assets).

(* ------------------------------------------------------------------ *)
(** * Further parts of [App]: loading flag, initial session, tour marker *)

(** No occurrence of the character [c] in the string. *)
Fixpoint lacks (c : ascii) (s : string) : bool :=
  match s with
  | EmptyString => true
  | String d rest => negb (Ascii.eqb d c) && lacks c rest
  end.

Definition setLoading (a : SetStateAction bool) : M unit :=
  modify (fun s =>
    mkApp (currentUser s) (isTourActive s) (apply_action a (loading s))
      (galleryAssets s) (isGalleryLoading s) (galleryError s)
      (deletingAssetId s) (collectionAssets s) (isCollectionLoading s)
      (collectionError s) (deletingCollectionAssetId s) (pathname s)
      (trace s)).

(** [localStorage], for a storage that accepts writes: string keys and
    values in insertion order; [getItem] is [null] for a missing key,
    [setItem] overwrites in place or appends. *)
Definition Storage : Type := list (string * string).

Fixpoint getItem (key : string) (storage : Storage) : option string :=
  match storage with
  | [] => None
  | (k, v) :: rest => if k =? key then Some v else getItem key rest
  end.

Fixpoint setItem (key value : string) (storage : Storage) : Storage :=
  match storage with
  | [] => [(key, value)]
  | (k, v) :: rest =>
      if k =? key then (k, value) :: rest
      else (k, v) :: setItem key value rest
  end.

Definition tour_key : string := "zola_ai_tour_completed".

(** [handleTourClose]: the marker is written, then the overlay is hidden. *)
Definition handleTourClose (storage : Storage) (s : App)
  : Storage * Result unit :=
  (setItem tour_key "true" storage, setIsTourActive (Value false) s).

(** The answers of the outside for one session event, the marker being
    read from [storage]. *)
Definition env_with_storage (query : Settled ProfileResponse.t)
  (storage : Storage) : SessionEnv :=
  mkSessionEnv query (Fulfilled (getItem tour_key storage)).

Section InitialSession.

Variable PATHS : Paths.

(** [processSession] up to its [await]: for a session with a user it
    starts the profile query and waits for it; without a user it meets no
    [await] and runs to its end. *)
Definition processSession_start (r : App) (session : option Session.t)
  (env : SessionEnv) : M unit :=
  match session_user session with
  | Some su => remote (SelectProfile (SessionUser.id su))
  | None => processSession PATHS r session env
  end.

(** [processSession] for a session with the user [su], from the moment the
    profile query settles. *)
Definition processSession_resume (r : App) (su : SessionUser.t)
  (env : SessionEnv) : M unit :=
  try_catch
    (response <- await (profiles_maybeSingle env) ;;
     match ProfileResponse.error response with
     | Some profileError =>
         console_warn "Could not fetch user profile on auth change:"
           (message profileError)
     | None => ret tt
     end ;;
     setCurrentUser
       (Value (Some (user_of_session su (ProfileResponse.data response)))) ;;
     fetchGalleryAssets r (SessionUser.id su) false ;;
     fetchCollectionAssets r (SessionUser.id su) false ;;
     (if isPublicPath PATHS r then navigate (HOME PATHS) true else ret tt) ;;
     tourCompleted <- await (localStorage_getItem env) ;;
     if negb (truthy tourCompleted) then emit (SetTimeout_tour 500)
     else ret tt)
    (fun error =>
       console_error "Error in session processing:" (Some error) ;;
       project_logged_out PATHS r).

(** The chain [getSession().then(...).catch(...).finally(...)] of the
    effect, run when [getSession] settles. The [then] callback calls
    [processSession(session)] without awaiting it, so the chain holds the
    part of it that runs up to its [await]; the [catch] callback logs and
    calls [processSession(null)], which runs to its end; [finally] lowers
    the loading flag. *)
Definition initial_session (r : App) (getSession : Settled (option Session.t))
  (env : SessionEnv) : M unit :=
  match getSession with
  | Fulfilled session =>
      processSession_start r session env ;;
      setLoading (Value false)
  | Rejected error =>
      console_error "Error fetching initial session:" (Some error) ;;
      processSession PATHS r None env ;;
      setLoading (Value false)
  end.

End InitialSession.

(* ------------------------------------------------------------------ *)
(** * The sign-in form of [AuthPage] *)

(** Strings stand for their UTF-8 bytes. The code points that
    [String.prototype.trim] removes are the ECMAScript white space and line
    terminators: U+0009 to U+000D, U+0020, U+00A0, U+1680, U+2000 to
    U+200A, U+2028, U+2029, U+202F, U+205F, U+3000 and U+FEFF. *)
Definition ws1 (a : ascii) : bool :=
  let n := nat_of_ascii a in
  ((9 <=? n) && (n <=? 13) || (n =? 32))%nat.

Definition ws2 (a b : ascii) : bool :=
  ((nat_of_ascii a =? 194) && (nat_of_ascii b =? 160))%nat.

Definition ws3 (a b c : ascii) : bool :=
  let x := nat_of_ascii a in
  let y := nat_of_ascii b in
  let z := nat_of_ascii c in
  ((x =? 225) && (y =? 154) && (z =? 128)
   || (x =? 226) && (y =? 128)
      && ((128 <=? z) && (z <=? 138) || (z =? 168) || (z =? 169)
          || (z =? 175))
   || (x =? 226) && (y =? 129) && (z =? 159)
   || (x =? 227) && (y =? 128) && (z =? 128)
   || (x =? 239) && (y =? 187) && (z =? 191))%nat.

Fixpoint trimStart (s : string) : string :=
  match s with
  | EmptyString => EmptyString
  | String a r1 =>
      if ws1 a then trimStart r1
      else
        match r1 with
        | EmptyString => s
        | String b r2 =>
            if ws2 a b then trimStart r2
            else
              match r2 with
              | EmptyString => s
              | String c r3 => if ws3 a b c then trimStart r3 else s
              end
        end
  end.

Fixpoint reverse_onto (s acc : string) : string :=
  match s with
  | EmptyString => acc
  | String a rest => reverse_onto rest (String a acc)
  end.

Definition reverse (s : string) : string := reverse_onto s EmptyString.

(** [trimStart] on the reversed bytes: a white-space code point is read
    from its last byte to its first. *)
Fixpoint trimStart_reversed (s : string) : string :=
  match s with
  | EmptyString => EmptyString
  | String c r1 =>
      if ws1 c then trimStart_reversed r1
      else
        match r1 with
        | EmptyString => s
        | String b r2 =>
            if ws2 b c then trimStart_reversed r2
            else
              match r2 with
              | EmptyString => s
              | String a r3 =>
                  if ws3 a b c then trimStart_reversed r3 else s
              end
        end
  end.

Definition trimEnd (s : string) : string :=
  reverse (trimStart_reversed (reverse s)).

Definition trim (s : string) : string := trimEnd (trimStart s).

Module AuthPage.

(** What the form asks of the identity provider, and what it does to the
    submit event. *)
Inductive Effect : Type :=
| PreventDefault
| SignInWithPassword (email password : string)
| SignUp (email password username : string)
| SignInWithOAuth (provider redirectTo : string).

Definition is_provider_call (e : Effect) : bool :=
  match e with
  | PreventDefault => false
  | _ => true
  end.

(** The state variables of [AuthPage], and the log of effects. *)
Record Form : Type := mkForm {
  isLogin : bool;
  email : string;
  password : string;
  username : string;
  loading : bool;
  error : string;
  signupSuccess : bool;
  redirectUrl : string;
  log : list Effect
}.

(** The provider's answer as far as the form reads it: [data.user] with
    its optional [identities], [data.session], [error]. *)
Record AuthUser : Type := mkAuthUser {
  identities : option (list string)
}.

Record AuthResponse : Type := mkAuthResponse {
  data_user : option AuthUser;
  data_session : option string;
  response_error : option JsError
}.

(** The form after a handler has run: its promise fulfilled, or rejected
    because an awaited provider call was. *)
Inductive Run : Type :=
| Done (f : Form)
| Failed (e : JsError) (f : Form).

Definition form_of (run : Run) : Form :=
  match run with
  | Done f => f
  | Failed _ f => f
  end.

Definition setLoading (v : bool) (f : Form) : Form :=
  mkForm (isLogin f) (email f) (password f) (username f) v (error f)
    (signupSuccess f) (redirectUrl f) (log f).

Definition setError (v : string) (f : Form) : Form :=
  mkForm (isLogin f) (email f) (password f) (username f) (loading f) v
    (signupSuccess f) (redirectUrl f) (log f).

Definition setSignupSuccess (v : bool) (f : Form) : Form :=
  mkForm (isLogin f) (email f) (password f) (username f) (loading f)
    (error f) v (redirectUrl f) (log f).

Definition emit (e : Effect) (f : Form) : Form :=
  mkForm (isLogin f) (email f) (password f) (username f) (loading f)
    (error f) (signupSuccess f) (redirectUrl f) (log f ++ [e]).

(** [!value.trim()] *)
Definition blank (value : string) : bool := negb (truthy_string (trim value)).

(** [handleSubmit] up to its [await], or to its early [return]. [r] is the
    render whose field values the handler closes over. *)
Definition handleSubmit (r : Form) (f : Form) : Form :=
  let f := emit PreventDefault f in
  let f := setError "" f in
  let f := setLoading true f in
  if blank (email r) || blank (password r) then
    setLoading false (setError "Email and password cannot be empty." f)
  else if isLogin r then
    emit (SignInWithPassword (email r) (password r)) f
  else if blank (username r) then
    setLoading false (setError "Username cannot be empty." f)
  else
    emit (SignUp (email r) (password r) (username r)) f.

(** Whether [handleSubmit] reaches an [await]. *)
Definition submits (r : Form) : bool :=
  negb (blank (email r) || blank (password r))
  && (isLogin r || negb (blank (username r))).

(** [handleSubmit] from the moment the awaited provider call settles. *)
Definition handleSubmit_resume (r : Form) (response : Settled AuthResponse)
  (f : Form) : Run :=
  match response with
  | Rejected e => Failed e f
  | Fulfilled resp =>
      let f :=
        if isLogin r then
          match response_error resp with
          | Some err => setError (message err) f
          | None => f
          end
        else
          match response_error resp with
          | Some err => setError (message err) f
          | None =>
              match data_user resp with
              | Some user =>
                  match identities user with
                  | Some [] => setSignupSuccess true f
                  | _ =>
                      match data_session resp with
                      | None => setSignupSuccess true f
                      | Some _ => f
                      end
                  end
              | None => f
              end
          end
      in
      Done (setLoading false f)
  end.

(** [handleGoogleSignIn] up to its [await]; [origin] is
    [window.location.origin]. *)
Definition handleGoogleSignIn (origin : string) (f : Form) : Form :=
  emit (SignInWithOAuth "google" origin) (setError "" f).

Definition handleGoogleSignIn_resume (response : Settled AuthResponse)
  (f : Form) : Run :=
  match response with
  | Rejected e => Failed e f
  | Fulfilled resp =>
      match response_error resp with
      | Some err => Done (setError ("Google sign-in error: " ++ message err) f)
      | None => Done f
      end
  end.

End AuthPage.

(** Two forms used in examples: a sign-in with padded credentials and a
    registration whose username is only white space. *)
Definition form_login_padded : AuthPage.Form :=
  AuthPage.mkForm true " ann@example.com " "secret" "" false "" false
    "https://zola.example" [].

Definition form_register_blank_name : AuthPage.Form :=
  AuthPage.mkForm false "ann@example.com" "secret" "   " false "" false
    "https://zola.example" [].

Definition form_blank_password : AuthPage.Form :=
  AuthPage.mkForm true "ann@example.com" "  " "" false "stale" false
    "https://zola.example" [].

(** More inputs for examples. *)
Definition clock_2000 : Clock := mkClock 2000 "1970-01-01T00:00:02.000Z".

Definition image_without_comma : string := "blob:https://zola.example/41d0".

Definition stored_c : GeneratedAsset.t :=
  GeneratedAsset.mk "b5e2" "u-1" "u-1/b5e2.png" "https://cdn/u-1/b5e2.png"
    "virtual_photoshoot" "1970-01-01T00:00:03.000Z".

(** The guard of [fetchGalleryAssets] and [fetchCollectionAssets], for a
    list of [n] entries in the render. *)
Definition fetch_skipped (userId : string) (n : nat) (forceRefresh : bool)
  : bool :=
  negb (truthy_string userId) || ((0 <? n)%nat && negb forceRefresh).

(** The effects of a session event that carries the user [su], in the
    order the projector issues them, when the profile query resolves with
    [response] and the marker read gives [tourCompleted]. *)
Definition session_effects (PATHS : Paths) (r : App) (su : SessionUser.t)
  (response : ProfileResponse.t) (tourCompleted : option string)
  : list Effect :=
  [Remote (SelectProfile (SessionUser.id su))]
  ++ match ProfileResponse.error response with
     | Some profileError =>
         [ConsoleWarn "Could not fetch user profile on auth change:"
            (message profileError)]
     | None => []
     end
  ++ (if fetch_skipped (SessionUser.id su) (List.length (galleryAssets r))
           false
      then [] else [Remote (GetAssetsForUser (SessionUser.id su))])
  ++ (if fetch_skipped (SessionUser.id su)
           (List.length (collectionAssets r)) false
      then [] else [Remote (GetAssetsFromCollection (SessionUser.id su))])
  ++ (if isPublicPath PATHS r then [Navigate (HOME PATHS) true] else [])
  ++ (if truthy tourCompleted then [] else [SetTimeout_tour 500]).

(** SSR environments for examples: a template without the token, and one
    with the token twice. *)
Definition env_no_outlet : Ssr.Env :=
  Ssr.mkEnv (Fulfilled "<div id='root'></div>") (Fulfilled render_plain).

Definition env_two_outlets : Ssr.Env :=
  Ssr.mkEnv
    (Fulfilled "<header><!--ssr-outlet--></header><main><!--ssr-outlet--></main>")
    (Fulfilled render_plain).

(** A registration with all fields filled, a provider answer that asks for
    email confirmation (a user, no session), and a session of another
    user. *)
Definition form_register : AuthPage.Form :=
  AuthPage.mkForm false "ann@example.com" "secret" "ann" false "" false
    "https://zola.example" [].

Definition response_unconfirmed : AuthPage.AuthResponse :=
  AuthPage.mkAuthResponse (Some (AuthPage.mkAuthUser (Some ["email"]))) None
    None.

Definition session_bob : option Session.t :=
  Some (Session.mk (Some (SessionUser.mk "u-2" (Some "bob@example.com")))).

(** An SSR environment in which both the template read and the import
    fail. *)
Definition env_no_template_no_module : Ssr.Env :=
  Ssr.mkEnv (Rejected (mkError "ENOENT: no such file or directory"))
    (Rejected (mkError "Cannot find module entry-server.js")).

(* ================================================================== *)
(** * Properties *)

(** ** Lists keyed by an identifier *)

Lemma filter_key_absent (A : Type) (key : A -> string) (k : string)
  (l : list A) (a : A) :
  In a (filter (fun x => negb (key x =? k)) l) -> key a <> k.
Proof.
  intros Hin Heq.
  apply filter_In in Hin as [_ Hkeep].
  rewrite Heq, String.eqb_refl in Hkeep.
  discriminate.
Qed.

Lemma filter_key_fresh (A : Type) (key : A -> string) (k : string)
  (l : list A) :
  (forall a, In a l -> key a <> k) ->
  filter (fun x => negb (key x =? k)) l = l.
Proof.
  induction l as [|x l IH]; intros Hfresh; simpl.
  - reflexivity.
  - destruct (String.eqb_spec (key x) k) as [Heq|Hne]; simpl.
    + exfalso. apply (Hfresh x); [left; reflexivity | exact Heq].
    + f_equal. apply IH. intros a Ha. apply Hfresh. right. exact Ha.
Qed.

Lemma filter_key_length (A : Type) (key : A -> string) (k : string)
  (l : list A) :
  List.length (filter (fun x => negb (key x =? k)) l) <= List.length l.
Proof.
  induction l as [|x l IH]; simpl.
  - constructor.
  - destruct (negb (key x =? k)); simpl; lia.
Qed.

Lemma filter_key_keeps (A : Type) (key : A -> string) (k : string)
  (l : list A) (a : A) :
  In a l -> key a <> k -> In a (filter (fun x => negb (key x =? k)) l).
Proof.
  intros Hin Hne. apply filter_In. split; [exact Hin|].
  apply String.eqb_neq in Hne. rewrite Hne. reflexivity.
Qed.

Lemma map_swap_nth (A : Type) (key : A -> string) (k : string) (v : A)
  (l : list A) (i : nat) (a : A) :
  nth_error l i = Some a ->
  nth_error (map (fun x => if key x =? k then v else x) l) i
  = Some (if key a =? k then v else a).
Proof.
  intros Hnth.
  rewrite nth_error_map, Hnth.
  reflexivity.
Qed.

Lemma map_swap_absent (A : Type) (key : A -> string) (k : string) (v : A)
  (l : list A) (a : A) :
  key v <> k ->
  In a (map (fun x => if key x =? k then v else x) l) -> key a <> k.
Proof.
  intros Hv Hin.
  apply in_map_iff in Hin as [x [Hx _]].
  destruct (String.eqb_spec (key x) k) as [Heq|Hne]; subst a; assumption.
Qed.

(** ** Placeholder identifiers *)

Lemma prefix_append (p s : string) : prefix p (p ++ s) = true.
Proof.
  induction p as [|c p IH]; simpl.
  - destruct s; reflexivity.
  - destruct (ascii_dec c c) as [_|Hne]; [exact IH | contradiction].
Qed.

Lemma gallery_tempId_prefix (clock : Clock) :
  prefix "temp_" (gallery_tempId clock) = true.
Proof. apply prefix_append. Qed.

Lemma collection_tempId_prefix (clock : Clock) :
  prefix "temp_collection_" (collection_tempId clock) = true.
Proof. apply prefix_append. Qed.

(** The decimal rendering of a clock reading determines the reading, so
    two placeholder identifiers of one list coincide only for saves made at
    the same clock reading. *)
Lemma to_int_not_nil (z : Z) :
  Z.to_int z <> Decimal.Pos Decimal.Nil
  /\ Z.to_int z <> Decimal.Neg Decimal.Nil.
Proof.
  split; intros Habs; pose proof (DecimalZ.of_to z) as Hz;
    rewrite Habs in Hz; simpl in Hz; subst z; discriminate Habs.
Qed.

Lemma Number_toString_injective (a b : Z) :
  Number_toString a = Number_toString b -> a = b.
Proof.
  unfold Number_toString. intros Heq.
  apply DecimalZ.to_int_inj.
  destruct (to_int_not_nil a) as [Ha Ha'].
  destruct (to_int_not_nil b) as [Hb Hb'].
  pose proof (NilZero.isi (Z.to_int a) Ha Ha') as Hra.
  pose proof (NilZero.isi (Z.to_int b) Hb Hb') as Hrb.
  rewrite Heq in Hra. rewrite Hra in Hrb.
  injection Hrb as ->. reflexivity.
Qed.

Lemma gallery_tempId_injective (clock clock' : Clock) :
  gallery_tempId clock = gallery_tempId clock' ->
  Date_now clock = Date_now clock'.
Proof.
  unfold gallery_tempId. simpl. intros Heq.
  apply Number_toString_injective. congruence.
Qed.

Lemma collection_tempId_injective (clock clock' : Clock) :
  collection_tempId clock = collection_tempId clock' ->
  Date_now clock = Date_now clock'.
Proof.
  unfold collection_tempId. simpl. intros Heq.
  apply Number_toString_injective. congruence.
Qed.

Lemma unprefixed_is_not_gallery_tempId (clock : Clock) (ident : string) :
  prefix "temp_" ident = false -> ident <> gallery_tempId clock.
Proof.
  intros Hno Heq. rewrite Heq, gallery_tempId_prefix in Hno. discriminate.
Qed.

Lemma unprefixed_is_not_collection_tempId (clock : Clock) (ident : string) :
  prefix "temp_collection_" ident = false -> ident <> collection_tempId clock.
Proof.
  intros Hno Heq. rewrite Heq, collection_tempId_prefix in Hno. discriminate.
Qed.

(** ** Save: the synchronous step *)

(** C3. For a save with an authenticated owner, the handler returns
    normally and its result is the start of the remote write on a store
    [sA] in which the placeholder is already the first list element and no
    effect has been issued yet. The placeholder's identifier is the fixed
    prefix followed by the decimal clock reading, its display content is
    the caller's content unchanged, and its stored location is the
    sentinel. Both lists. *)
Theorem save_prepends_placeholder_first :
  forall (r s : App) (clock : Clock) (user : User.t),
    currentUser r = Some user ->
    (forall generatedImage : string,
       exists sA s' first,
         handleAssetSaved r clock generatedImage s = Ok tt s'
         /\ galleryAssets sA = first :: galleryAssets s
         /\ trace sA = trace s
         /\ remote (SaveAsset (User.id user) (base64_of generatedImage)
                      "virtual_photoshoot") sA = Ok tt s'
         /\ galleryAssets s' = first :: galleryAssets s
         /\ GeneratedAsset.display_url first = generatedImage
         /\ GeneratedAsset.id first
            = "temp_" ++ Number_toString (Date_now clock)
         /\ prefix "temp_" (GeneratedAsset.id first) = true
         /\ GeneratedAsset.image_url first = "optimistic_update.png")
    /\
    (forall assetData : AssetData.t,
       exists sA s' first,
         handleSaveToCollection r clock assetData s = Ok tt s'
         /\ collectionAssets sA = first :: collectionAssets s
         /\ trace sA = trace s
         /\ remote (SaveAssetToCollection (User.id user)
                      (base64_of (AssetData.imageUrl assetData))
                      (AssetData.asset_type assetData)
                      (AssetData.item_name assetData)
                      (AssetData.item_category assetData)) sA = Ok tt s'
         /\ collectionAssets s' = first :: collectionAssets s
         /\ CollectionAsset.display_url first = AssetData.imageUrl assetData
         /\ CollectionAsset.id first
            = "temp_collection_" ++ Number_toString (Date_now clock)
         /\ prefix "temp_collection_" (CollectionAsset.id first) = true
         /\ CollectionAsset.image_url first = "optimistic_update.png").
Proof.
  intros r s clock user Hlogged. split.
  - intros generatedImage.
    unfold handleAssetSaved. rewrite Hlogged.
    set (tempAsset := gallery_tempAsset user clock generatedImage).
    exists (store_of
              (setGalleryAssets (Updater (fun prev => tempAsset :: prev)) s)).
    eexists. exists tempAsset.
    split; [reflexivity|].
    repeat split; try reflexivity.
    apply gallery_tempId_prefix.
  - intros assetData.
    unfold handleSaveToCollection. rewrite Hlogged.
    set (tempAsset := collection_tempAsset user clock assetData).
    exists (store_of
              (setCollectionAssets
                 (Updater (fun prev => tempAsset :: prev)) s)).
    eexists. exists tempAsset.
    split; [reflexivity|].
    repeat split; try reflexivity.
    apply collection_tempId_prefix.
Qed.

Lemma save_prepends_placeholder_first_witness :
  exists s' first,
    handleAssetSaved (signed_in_at "/dashboard") clock_1000 image_a
      (signed_in_at "/dashboard") = Ok tt s'
    /\ galleryAssets s' = [first]
    /\ GeneratedAsset.display_url first = image_a
    /\ GeneratedAsset.id first = "temp_1000".
Proof.
  destruct (save_prepends_placeholder_first
              (signed_in_at "/dashboard") (signed_in_at "/dashboard")
              clock_1000 alice eq_refl) as [Hgallery _].
  destruct (Hgallery image_a)
    as (sA & s' & first & Hrun & _ & _ & _ & Hlist & Hshow & Hid & _).
  exists s', first.
  repeat split; assumption.
Defined.

(** C6. With no authenticated owner in the handler's render, the save
    handler itself ends by throwing the login error: nothing is written to
    either list and the only effect is one console entry, so no remote
    write is started and no detached task exists. Both lists. *)
Theorem save_without_owner_throws_synchronously :
  forall (r s : App) (clock : Clock),
    currentUser r = None ->
    (forall generatedImage : string,
       exists s',
         handleAssetSaved r clock generatedImage s
         = Thrown (mkError "You must be logged in to save an image.") s'
         /\ galleryAssets s' = galleryAssets s
         /\ collectionAssets s' = collectionAssets s
         /\ trace s'
            = (trace s
               ++ [ConsoleError "Cannot save asset without a logged in user."
                     None])%list)
    /\
    (forall assetData : AssetData.t,
       exists s',
         handleSaveToCollection r clock assetData s
         = Thrown (mkError "You must be logged in to save an asset.") s'
         /\ galleryAssets s' = galleryAssets s
         /\ collectionAssets s' = collectionAssets s
         /\ trace s'
            = (trace s
               ++ [ConsoleError
                     "Cannot save to collection without a logged in user."
                     None])%list).
Proof.
  intros r s clock Hnone. split.
  - intros generatedImage.
    unfold handleAssetSaved. rewrite Hnone.
    eexists. split; [reflexivity|]. repeat split.
  - intros assetData.
    unfold handleSaveToCollection. rewrite Hnone.
    eexists. split; [reflexivity|]. repeat split.
Qed.

Lemma save_without_owner_throws_synchronously_witness :
  exists s',
    handleAssetSaved (signed_out_at "/") clock_1000 image_a two_assets
    = Thrown (mkError "You must be logged in to save an image.") s'
    /\ galleryAssets s' = [stored_b; stored_a]
    /\ filter is_remote (trace s') = [].
Proof.
  destruct (save_without_owner_throws_synchronously
              (signed_out_at "/") two_assets clock_1000 eq_refl)
    as [Hgallery _].
  destruct (Hgallery image_a) as (s' & Hrun & Hlist & _ & Htrace).
  exists s'. split; [exact Hrun|]. split; [exact Hlist|].
  rewrite Htrace. reflexivity.
Defined.

(** ** Save: the detached task *)

(** What the synchronous step leaves when an owner is signed in. *)
Lemma handleAssetSaved_signed_in (r s : App) (clock : Clock) (user : User.t)
  (generatedImage : string) :
  currentUser r = Some user ->
  exists s1,
    handleAssetSaved r clock generatedImage s = Ok tt s1
    /\ galleryAssets s1
       = gallery_tempAsset user clock generatedImage :: galleryAssets s
    /\ collectionAssets s1 = collectionAssets s
    /\ trace s1
       = (trace s
          ++ [Remote (SaveAsset (User.id user) (base64_of generatedImage)
                        "virtual_photoshoot")])%list.
Proof.
  intros Hlogged. unfold handleAssetSaved. rewrite Hlogged.
  eexists. split; [reflexivity|]. repeat split.
Qed.

Lemma handleSaveToCollection_signed_in (r s : App) (clock : Clock)
  (user : User.t) (assetData : AssetData.t) :
  currentUser r = Some user ->
  exists s1,
    handleSaveToCollection r clock assetData s = Ok tt s1
    /\ collectionAssets s1
       = collection_tempAsset user clock assetData :: collectionAssets s
    /\ galleryAssets s1 = galleryAssets s
    /\ trace s1
       = (trace s
          ++ [Remote (SaveAssetToCollection (User.id user)
                        (base64_of (AssetData.imageUrl assetData))
                        (AssetData.asset_type assetData)
                        (AssetData.item_name assetData)
                        (AssetData.item_category assetData))])%list.
Proof.
  intros Hlogged. unfold handleSaveToCollection. rewrite Hlogged.
  eexists. split; [reflexivity|]. repeat split.
Qed.

(** What the rejection branch does on any store: the handler's [catch]
    logs the error and keeps the entries with another identifier. *)
Lemma handleAssetSaved_background_rejected (clock : Clock) (e : JsError)
  (s2 : App) :
  exists s3,
    handleAssetSaved_background clock (Rejected e) s2 = Ok tt s3
    /\ galleryAssets s3
       = filter (fun asset =>
                   negb (GeneratedAsset.id asset =? gallery_tempId clock))
                (galleryAssets s2)
    /\ collectionAssets s3 = collectionAssets s2
    /\ galleryError s3 = galleryError s2
    /\ collectionError s3 = collectionError s2
    /\ currentUser s3 = currentUser s2
    /\ trace s3
       = (trace s2
          ++ [ConsoleError "Failed to save asset in background:"
                (Some e)])%list.
Proof.
  eexists. split; [reflexivity|]. repeat split.
Qed.

Lemma handleSaveToCollection_background_rejected (clock : Clock)
  (e : JsError) (s2 : App) :
  exists s3,
    handleSaveToCollection_background clock (Rejected e) s2 = Ok tt s3
    /\ collectionAssets s3
       = filter (fun asset =>
                   negb (CollectionAsset.id asset =? collection_tempId clock))
                (collectionAssets s2)
    /\ galleryAssets s3 = galleryAssets s2
    /\ galleryError s3 = galleryError s2
    /\ collectionError s3 = collectionError s2
    /\ currentUser s3 = currentUser s2
    /\ trace s3
       = (trace s2
          ++ [ConsoleError
                "Failed to save asset to collection in background:"
                (Some e)])%list.
Proof.
  eexists. split; [reflexivity|]. repeat split.
Qed.

(** What the success branch does on any store. *)
Lemma handleAssetSaved_background_fulfilled (clock : Clock)
  (realAsset : GeneratedAsset.t) (s2 : App) :
  exists s3,
    handleAssetSaved_background clock (Fulfilled realAsset) s2 = Ok tt s3
    /\ galleryAssets s3
       = map (fun asset =>
                if GeneratedAsset.id asset =? gallery_tempId clock
                then realAsset else asset)
             (galleryAssets s2)
    /\ collectionAssets s3 = collectionAssets s2
    /\ trace s3 = trace s2.
Proof.
  eexists. split; [reflexivity|]. repeat split.
Qed.

Lemma handleSaveToCollection_background_fulfilled (clock : Clock)
  (realAsset : CollectionAsset.t) (s2 : App) :
  exists s3,
    handleSaveToCollection_background clock (Fulfilled realAsset) s2
    = Ok tt s3
    /\ collectionAssets s3
       = map (fun asset =>
                if CollectionAsset.id asset =? collection_tempId clock
                then realAsset else asset)
             (collectionAssets s2)
    /\ galleryAssets s3 = galleryAssets s2
    /\ trace s3 = trace s2.
Proof.
  eexists. split; [reflexivity|]. repeat split.
Qed.

(** A failed save leaves the placeholders of saves made at other clock
    readings in the list. *)
Lemma save_failure_keeps_other_placeholders (clock clock' : Clock)
  (e : JsError) (s2 : App) (a : GeneratedAsset.t) :
  Date_now clock <> Date_now clock' ->
  In a (galleryAssets s2) ->
  GeneratedAsset.id a = gallery_tempId clock' ->
  In a (galleryAssets
          (store_of (handleAssetSaved_background clock (Rejected e) s2))).
Proof.
  intros Hclock Hin Hid.
  destruct (handleAssetSaved_background_rejected clock e s2)
    as (s3 & Hrun & Hlist & _).
  rewrite Hrun. simpl. rewrite Hlist.
  apply filter_key_keeps with (key := GeneratedAsset.id); [exact Hin|].
  rewrite Hid. intros Heq. apply Hclock. symmetry.
  apply gallery_tempId_injective. exact Heq.
Qed.

(** C1. The code at the failing input. One save of [image_a] at clock
    reading 1000 is still pending, so the list holds one entry, identifier
    [temp_1000]. A second save at the same clock reading is given the same
    identifier; when its remote write fails the [filter] of the rollback
    drops both entries, the other save's placeholder with its own, and the
    list is left with zero entries, not the one it had before that save. *)
Lemma save_failure_same_clock_reading_shrinks_list :
  exists s1,
    handleAssetSaved one_pending_save clock_1000 image_b one_pending_save
    = Ok tt s1
    /\ List.length (galleryAssets one_pending_save) = 1
    /\ List.length
         (galleryAssets
            (store_of (handleAssetSaved_background clock_1000
                         (Rejected network_down) s1))) = 0
    /\ List.length
         (galleryAssets
            (store_of (handleAssetSaved_background clock_1000
                         (Rejected network_down) s1)))
       <> List.length (galleryAssets one_pending_save).
Proof.
  exists (store_of (handleAssetSaved one_pending_save clock_1000 image_b
                      one_pending_save)).
  split; [reflexivity|].
  split; [reflexivity|].
  split; [reflexivity|].
  vm_compute. discriminate.
Qed.

(** X27. The silent rollback where the placeholder identifier is the
    save's own. For a save with an authenticated owner whose remote write
    fails: the caller got a normal return; the failure branch, on whatever
    store it finds, returns normally, leaves no entry carrying the save's
    placeholder identifier, leaves the list's error flag as it was and adds
    one console entry; and when no entry of the pre-save list carries that
    identifier and nothing else touched the list in between, the list is
    exactly the pre-save list, hence of the pre-save length. Both lists. *)
Theorem save_failure_rolls_back_silently :
  forall (r s : App) (clock : Clock) (user : User.t) (e : JsError),
    currentUser r = Some user ->
    (forall a, In a (galleryAssets s) ->
               GeneratedAsset.id a <> gallery_tempId clock) ->
    (forall a, In a (collectionAssets s) ->
               CollectionAsset.id a <> collection_tempId clock) ->
    (forall generatedImage : string,
       exists s1 s3,
         handleAssetSaved r clock generatedImage s = Ok tt s1
         /\ handleAssetSaved_background clock (Rejected e) s1 = Ok tt s3
         /\ galleryAssets s3 = galleryAssets s
         /\ List.length (galleryAssets s3) = List.length (galleryAssets s))
    /\
    (forall s2 : App,
       exists s3,
         handleAssetSaved_background clock (Rejected e) s2 = Ok tt s3
         /\ (forall a, In a (galleryAssets s3) ->
                       GeneratedAsset.id a <> gallery_tempId clock)
         /\ galleryError s3 = galleryError s2
         /\ trace s3
            = (trace s2
               ++ [ConsoleError "Failed to save asset in background:"
                     (Some e)])%list)
    /\
    (forall assetData : AssetData.t,
       exists s1 s3,
         handleSaveToCollection r clock assetData s = Ok tt s1
         /\ handleSaveToCollection_background clock (Rejected e) s1
            = Ok tt s3
         /\ collectionAssets s3 = collectionAssets s
         /\ List.length (collectionAssets s3)
            = List.length (collectionAssets s))
    /\
    (forall s2 : App,
       exists s3,
         handleSaveToCollection_background clock (Rejected e) s2 = Ok tt s3
         /\ (forall a, In a (collectionAssets s3) ->
                       CollectionAsset.id a <> collection_tempId clock)
         /\ collectionError s3 = collectionError s2
         /\ trace s3
            = (trace s2
               ++ [ConsoleError
                     "Failed to save asset to collection in background:"
                     (Some e)])%list).
Proof.
  intros r s clock user e Hlogged Hfresh Hfresh'.
  split; [|split; [|split]].
  - intros generatedImage.
    destruct (handleAssetSaved_signed_in r s clock user generatedImage Hlogged)
      as (s1 & Hsave & Hlist1 & _).
    destruct (handleAssetSaved_background_rejected clock e s1)
      as (s3 & Hrun & Hlist3 & _).
    exists s1, s3. split; [exact Hsave|]. split; [exact Hrun|].
    assert (Hlist : galleryAssets s3 = galleryAssets s).
    { rewrite Hlist3, Hlist1. simpl. rewrite String.eqb_refl. simpl.
      apply filter_key_fresh with (key := GeneratedAsset.id). exact Hfresh. }
    split; [exact Hlist | rewrite Hlist; reflexivity].
  - intros s2.
    destruct (handleAssetSaved_background_rejected clock e s2)
      as (s3 & Hrun & Hlist & _ & Herr & _ & _ & Htrace).
    exists s3. repeat split; try assumption.
    intros a Hin. rewrite Hlist in Hin.
    exact (filter_key_absent _ GeneratedAsset.id _ _ _ Hin).
  - intros assetData.
    destruct (handleSaveToCollection_signed_in r s clock user assetData Hlogged)
      as (s1 & Hsave & Hlist1 & _).
    destruct (handleSaveToCollection_background_rejected clock e s1)
      as (s3 & Hrun & Hlist3 & _).
    exists s1, s3. split; [exact Hsave|]. split; [exact Hrun|].
    assert (Hlist : collectionAssets s3 = collectionAssets s).
    { rewrite Hlist3, Hlist1. simpl. rewrite String.eqb_refl. simpl.
      apply filter_key_fresh with (key := CollectionAsset.id).
      exact Hfresh'. }
    split; [exact Hlist | rewrite Hlist; reflexivity].
  - intros s2.
    destruct (handleSaveToCollection_background_rejected clock e s2)
      as (s3 & Hrun & Hlist & _ & _ & Herr & _ & Htrace).
    exists s3. repeat split; try assumption.
    intros a Hin. rewrite Hlist in Hin.
    exact (filter_key_absent _ CollectionAsset.id _ _ _ Hin).
Qed.

Lemma save_failure_rolls_back_silently_witness :
  exists s1 s3,
    handleAssetSaved two_assets clock_1000 image_a two_assets = Ok tt s1
    /\ handleAssetSaved_background clock_1000 (Rejected network_down) s1
       = Ok tt s3
    /\ galleryAssets s3 = [stored_b; stored_a]
    /\ List.length (galleryAssets s3) = 2.
Proof.
  assert (Hfresh : forall a, In a (galleryAssets two_assets) ->
                             GeneratedAsset.id a <> gallery_tempId clock_1000).
  { intros a [Ha|[Ha|[]]]; subst a; discriminate. }
  assert (Hfresh' : forall a, In a (collectionAssets two_assets) ->
                      CollectionAsset.id a <> collection_tempId clock_1000).
  { intros a [Ha|[Ha|[]]]; subst a; discriminate. }
  destruct (save_failure_rolls_back_silently
              two_assets two_assets clock_1000 alice network_down
              eq_refl Hfresh Hfresh') as [Hgallery _].
  exact (Hgallery image_a).
Defined.

(** C2. The code at the failing input. With one save still pending under
    identifier [temp_1000], a second save at the same clock reading puts
    its placeholder at index 0 and leaves the pending one at index 1. When
    the second remote write succeeds, the [map] of the swap replaces the
    entry at index 1 as well: an entry other than the save's placeholder
    has changed. *)
Lemma save_success_same_clock_reading_overwrites_other_entry :
  exists s1 other,
    handleAssetSaved one_pending_save clock_1000 image_b one_pending_save
    = Ok tt s1
    /\ nth_error (galleryAssets s1) 0
       = Some (gallery_tempAsset alice clock_1000 image_b)
    /\ nth_error (galleryAssets s1) 1 = Some other
    /\ nth_error
         (galleryAssets
            (store_of (handleAssetSaved_background clock_1000
                         (Fulfilled stored_b) s1))) 1
       = Some stored_b
    /\ other <> stored_b.
Proof.
  exists (store_of (handleAssetSaved one_pending_save clock_1000 image_b
                      one_pending_save)).
  exists (gallery_tempAsset alice clock_1000 image_a).
  split; [reflexivity|].
  split; [reflexivity|].
  split; [reflexivity|].
  split; [reflexivity|].
  discriminate.
Qed.

(** X28. The swap of the success branch, identifier by identifier. For
    a save with an authenticated owner whose remote write
    succeeds with an asset whose identifier lacks the placeholder prefix:
    right after the save the placeholder is at index 0 and, with nothing
    in between, index 0 then holds the returned asset; on whatever store
    the success branch finds, it returns normally, keeps the list length,
    puts the returned asset at every index whose entry carries the save's
    placeholder identifier, leaves every entry with another identifier as
    it was, and leaves no entry carrying the placeholder identifier. Both
    lists. *)
Theorem save_success_swaps_by_identifier :
  forall (r s : App) (clock : Clock) (user : User.t)
         (realAsset : GeneratedAsset.t)
         (realCollectionAsset : CollectionAsset.t),
    currentUser r = Some user ->
    prefix "temp_" (GeneratedAsset.id realAsset) = false ->
    prefix "temp_collection_" (CollectionAsset.id realCollectionAsset)
    = false ->
    (forall generatedImage : string,
       exists s1 s3 placeholder,
         handleAssetSaved r clock generatedImage s = Ok tt s1
         /\ nth_error (galleryAssets s1) 0 = Some placeholder
         /\ GeneratedAsset.id placeholder = gallery_tempId clock
         /\ handleAssetSaved_background clock (Fulfilled realAsset) s1
            = Ok tt s3
         /\ nth_error (galleryAssets s3) 0 = Some realAsset)
    /\
    (forall s2 : App,
       exists s3,
         handleAssetSaved_background clock (Fulfilled realAsset) s2
         = Ok tt s3
         /\ List.length (galleryAssets s3) = List.length (galleryAssets s2)
         /\ (forall i a,
               nth_error (galleryAssets s2) i = Some a ->
               GeneratedAsset.id a = gallery_tempId clock ->
               nth_error (galleryAssets s3) i = Some realAsset)
         /\ (forall i a,
               nth_error (galleryAssets s2) i = Some a ->
               GeneratedAsset.id a <> gallery_tempId clock ->
               nth_error (galleryAssets s3) i = Some a)
         /\ (forall a, In a (galleryAssets s3) ->
                       GeneratedAsset.id a <> gallery_tempId clock))
    /\
    (forall assetData : AssetData.t,
       exists s1 s3 placeholder,
         handleSaveToCollection r clock assetData s = Ok tt s1
         /\ nth_error (collectionAssets s1) 0 = Some placeholder
         /\ CollectionAsset.id placeholder = collection_tempId clock
         /\ handleSaveToCollection_background clock
              (Fulfilled realCollectionAsset) s1 = Ok tt s3
         /\ nth_error (collectionAssets s3) 0 = Some realCollectionAsset)
    /\
    (forall s2 : App,
       exists s3,
         handleSaveToCollection_background clock
           (Fulfilled realCollectionAsset) s2 = Ok tt s3
         /\ List.length (collectionAssets s3)
            = List.length (collectionAssets s2)
         /\ (forall i a,
               nth_error (collectionAssets s2) i = Some a ->
               CollectionAsset.id a = collection_tempId clock ->
               nth_error (collectionAssets s3) i = Some realCollectionAsset)
         /\ (forall i a,
               nth_error (collectionAssets s2) i = Some a ->
               CollectionAsset.id a <> collection_tempId clock ->
               nth_error (collectionAssets s3) i = Some a)
         /\ (forall a, In a (collectionAssets s3) ->
                       CollectionAsset.id a <> collection_tempId clock)).
Proof.
  intros r s clock user realAsset realCollectionAsset Hlogged Hreal Hreal'.
  assert (Hgeneral : forall s2 : App,
    exists s3,
      handleAssetSaved_background clock (Fulfilled realAsset) s2 = Ok tt s3
      /\ List.length (galleryAssets s3) = List.length (galleryAssets s2)
      /\ (forall i a,
            nth_error (galleryAssets s2) i = Some a ->
            GeneratedAsset.id a = gallery_tempId clock ->
            nth_error (galleryAssets s3) i = Some realAsset)
      /\ (forall i a,
            nth_error (galleryAssets s2) i = Some a ->
            GeneratedAsset.id a <> gallery_tempId clock ->
            nth_error (galleryAssets s3) i = Some a)
      /\ (forall a, In a (galleryAssets s3) ->
                    GeneratedAsset.id a <> gallery_tempId clock)).
  { intros s2.
    destruct (handleAssetSaved_background_fulfilled clock realAsset s2)
      as (s3 & Hrun & Hlist & _).
    exists s3. split; [exact Hrun|]. rewrite Hlist.
    split; [apply length_map|].
    split; [|split].
    - intros i a Hnth Hid.
      rewrite (map_swap_nth _ GeneratedAsset.id _ _ _ _ a Hnth).
      rewrite Hid, String.eqb_refl. reflexivity.
    - intros i a Hnth Hid.
      rewrite (map_swap_nth _ GeneratedAsset.id _ _ _ _ a Hnth).
      apply String.eqb_neq in Hid. rewrite Hid. reflexivity.
    - intros a Hin.
      eapply (map_swap_absent _ GeneratedAsset.id); [|exact Hin].
      apply unprefixed_is_not_gallery_tempId. exact Hreal. }
  assert (Hgeneral' : forall s2 : App,
    exists s3,
      handleSaveToCollection_background clock
        (Fulfilled realCollectionAsset) s2 = Ok tt s3
      /\ List.length (collectionAssets s3)
         = List.length (collectionAssets s2)
      /\ (forall i a,
            nth_error (collectionAssets s2) i = Some a ->
            CollectionAsset.id a = collection_tempId clock ->
            nth_error (collectionAssets s3) i = Some realCollectionAsset)
      /\ (forall i a,
            nth_error (collectionAssets s2) i = Some a ->
            CollectionAsset.id a <> collection_tempId clock ->
            nth_error (collectionAssets s3) i = Some a)
      /\ (forall a, In a (collectionAssets s3) ->
                    CollectionAsset.id a <> collection_tempId clock)).
  { intros s2.
    destruct (handleSaveToCollection_background_fulfilled clock
                realCollectionAsset s2) as (s3 & Hrun & Hlist & _).
    exists s3. split; [exact Hrun|]. rewrite Hlist.
    split; [apply length_map|].
    split; [|split].
    - intros i a Hnth Hid.
      rewrite (map_swap_nth _ CollectionAsset.id _ _ _ _ a Hnth).
      rewrite Hid, String.eqb_refl. reflexivity.
    - intros i a Hnth Hid.
      rewrite (map_swap_nth _ CollectionAsset.id _ _ _ _ a Hnth).
      apply String.eqb_neq in Hid. rewrite Hid. reflexivity.
    - intros a Hin.
      eapply (map_swap_absent _ CollectionAsset.id); [|exact Hin].
      apply unprefixed_is_not_collection_tempId. exact Hreal'. }
  split; [|split; [exact Hgeneral|split; [|exact Hgeneral']]].
  - intros generatedImage.
    destruct (handleAssetSaved_signed_in r s clock user generatedImage
                Hlogged) as (s1 & Hsave & Hlist1 & _).
    destruct (Hgeneral s1) as (s3 & Hrun & _ & Hswap & _).
    exists s1, s3, (gallery_tempAsset user clock generatedImage).
    split; [exact Hsave|].
    split; [rewrite Hlist1; reflexivity|].
    split; [reflexivity|].
    split; [exact Hrun|].
    apply (Hswap 0 (gallery_tempAsset user clock generatedImage)).
    + rewrite Hlist1. reflexivity.
    + reflexivity.
  - intros assetData.
    destruct (handleSaveToCollection_signed_in r s clock user assetData
                Hlogged) as (s1 & Hsave & Hlist1 & _).
    destruct (Hgeneral' s1) as (s3 & Hrun & _ & Hswap & _).
    exists s1, s3, (collection_tempAsset user clock assetData).
    split; [exact Hsave|].
    split; [rewrite Hlist1; reflexivity|].
    split; [reflexivity|].
    split; [exact Hrun|].
    apply (Hswap 0 (collection_tempAsset user clock assetData)).
    + rewrite Hlist1. reflexivity.
    + reflexivity.
Qed.

Lemma save_success_swaps_by_identifier_witness :
  exists s1 s3,
    handleAssetSaved two_assets clock_1000 image_b two_assets = Ok tt s1
    /\ handleAssetSaved_background clock_1000 (Fulfilled stored_b) s1
       = Ok tt s3
    /\ nth_error (galleryAssets s3) 0 = Some stored_b.
Proof.
  destruct (save_success_swaps_by_identifier
              two_assets two_assets clock_1000 alice stored_b
              stored_collection_b eq_refl eq_refl eq_refl) as [Hgallery _].
  destruct (Hgallery image_b) as (s1 & s3 & _ & Hsave & _ & _ & Hrun & Hnth).
  exists s1, s3. repeat split; assumption.
Defined.

(** ** Delete *)

(** What a delete that passes the guard does before its [await]. *)
Lemma handleDeleteAsset_started (r s : App) (assetToDelete : GeneratedAsset.t) :
  truthy (deletingAssetId r) = false ->
  exists s1,
    handleDeleteAsset r assetToDelete s = Ok tt s1
    /\ galleryAssets s1
       = filter (fun asset =>
                   negb (GeneratedAsset.id asset
                           =? GeneratedAsset.id assetToDelete))
                (galleryAssets s)
    /\ deletingAssetId s1 = Some (GeneratedAsset.id assetToDelete)
    /\ trace s1
       = (trace s
          ++ [Remote (DeleteAsset (GeneratedAsset.id assetToDelete)
                        (GeneratedAsset.image_url assetToDelete))])%list.
Proof.
  intros Hfree. unfold handleDeleteAsset. rewrite Hfree.
  eexists. split; [reflexivity|]. repeat split.
Qed.

Lemma handleDeleteAssetFromCollection_started (r s : App)
  (assetToDelete : CollectionAsset.t) :
  truthy (deletingCollectionAssetId r) = false ->
  exists s1,
    handleDeleteAssetFromCollection r assetToDelete s = Ok tt s1
    /\ collectionAssets s1
       = filter (fun asset =>
                   negb (CollectionAsset.id asset
                           =? CollectionAsset.id assetToDelete))
                (collectionAssets s)
    /\ deletingCollectionAssetId s1
       = Some (CollectionAsset.id assetToDelete)
    /\ trace s1
       = (trace s
          ++ [Remote (DeleteAssetFromCollection
                        (CollectionAsset.id assetToDelete)
                        (CollectionAsset.image_url assetToDelete))])%list.
Proof.
  intros Hfree. unfold handleDeleteAssetFromCollection. rewrite Hfree.
  eexists. split; [reflexivity|]. repeat split.
Qed.

(** What the part after the [await] does, on any store, for each way the
    remote delete can settle. *)
Lemma handleDeleteAsset_resume_fulfilled (r s2 : App) :
  exists s3,
    handleDeleteAsset_resume r (Fulfilled tt) s2 = Ok tt s3
    /\ galleryAssets s3 = galleryAssets s2
    /\ galleryError s3 = galleryError s2
    /\ deletingAssetId s3 = None
    /\ trace s3 = trace s2.
Proof.
  eexists. split; [reflexivity|]. repeat split.
Qed.

Lemma handleDeleteAsset_resume_rejected (r s2 : App) (e : JsError) :
  exists s3,
    handleDeleteAsset_resume r (Rejected e) s2 = Ok tt s3
    /\ galleryAssets s3 = galleryAssets r
    /\ galleryError s3
       = Some "Could not delete the asset. Please try again."
    /\ deletingAssetId s3 = None
    /\ trace s3
       = (trace s2 ++ [ConsoleError "Failed to delete asset:" (Some e)])%list.
Proof.
  eexists. split; [reflexivity|]. repeat split.
Qed.

Lemma handleDeleteAssetFromCollection_resume_fulfilled (r s2 : App) :
  exists s3,
    handleDeleteAssetFromCollection_resume r (Fulfilled tt) s2 = Ok tt s3
    /\ collectionAssets s3 = collectionAssets s2
    /\ collectionError s3 = collectionError s2
    /\ deletingCollectionAssetId s3 = None
    /\ trace s3 = trace s2.
Proof.
  eexists. split; [reflexivity|]. repeat split.
Qed.

Lemma handleDeleteAssetFromCollection_resume_rejected (r s2 : App)
  (e : JsError) :
  exists s3,
    handleDeleteAssetFromCollection_resume r (Rejected e) s2 = Ok tt s3
    /\ collectionAssets s3 = collectionAssets r
    /\ collectionError s3
       = Some "Could not delete the asset. Please try again."
    /\ deletingCollectionAssetId s3 = None
    /\ trace s3
       = (trace s2
          ++ [ConsoleError "Failed to delete asset from collection:"
                (Some e)])%list.
Proof.
  eexists. split; [reflexivity|]. repeat split.
Qed.

(** A delete called while the marker of its render is set does nothing. *)
Lemma handleDeleteAsset_blocked (r s : App) (assetToDelete : GeneratedAsset.t) :
  truthy (deletingAssetId r) = true ->
  handleDeleteAsset r assetToDelete s = Ok tt s.
Proof.
  intros Hbusy. unfold handleDeleteAsset. rewrite Hbusy. reflexivity.
Qed.

Lemma handleDeleteAssetFromCollection_blocked (r s : App)
  (assetToDelete : CollectionAsset.t) :
  truthy (deletingCollectionAssetId r) = true ->
  handleDeleteAssetFromCollection r assetToDelete s = Ok tt s.
Proof.
  intros Hbusy. unfold handleDeleteAssetFromCollection. rewrite Hbusy.
  reflexivity.
Qed.

Lemma remote_deletes_snoc (l : list Effect) (e : Effect) :
  List.length (filter is_remote_delete (l ++ [e]))
  <= S (List.length (filter is_remote_delete l)).
Proof.
  rewrite filter_app, length_app. simpl.
  destruct (is_remote_delete e); simpl; lia.
Qed.

(** C4. A delete invoked from the render that shows the store, with no
    delete in flight, removes the entry and starts the remote delete; when
    that remote delete fails, then on whatever store the failure finds the
    handler returns normally with the list equal to the list as it was when
    the delete was invoked, the list's error flag set to a non-empty
    message (truthy), and the deleting marker back to null. Both lists. *)
Theorem delete_failure_restores_list_and_flags_error :
  (forall (s : App) (assetToDelete : GeneratedAsset.t),
     truthy (deletingAssetId s) = false ->
     exists s1,
       handleDeleteAsset s assetToDelete s = Ok tt s1
       /\ trace s1
          = (trace s
             ++ [Remote (DeleteAsset (GeneratedAsset.id assetToDelete)
                           (GeneratedAsset.image_url assetToDelete))])%list
       /\ forall (e : JsError) (s2 : App),
            exists s3,
              handleDeleteAsset_resume s (Rejected e) s2 = Ok tt s3
              /\ galleryAssets s3 = galleryAssets s
              /\ map GeneratedAsset.id (galleryAssets s3)
                 = map GeneratedAsset.id (galleryAssets s)
              /\ galleryError s3
                 = Some "Could not delete the asset. Please try again."
              /\ truthy (galleryError s3) = true
              /\ deletingAssetId s3 = None)
  /\
  (forall (s : App) (assetToDelete : CollectionAsset.t),
     truthy (deletingCollectionAssetId s) = false ->
     exists s1,
       handleDeleteAssetFromCollection s assetToDelete s = Ok tt s1
       /\ trace s1
          = (trace s
             ++ [Remote (DeleteAssetFromCollection
                           (CollectionAsset.id assetToDelete)
                           (CollectionAsset.image_url assetToDelete))])%list
       /\ forall (e : JsError) (s2 : App),
            exists s3,
              handleDeleteAssetFromCollection_resume s (Rejected e) s2
              = Ok tt s3
              /\ collectionAssets s3 = collectionAssets s
              /\ map CollectionAsset.id (collectionAssets s3)
                 = map CollectionAsset.id (collectionAssets s)
              /\ collectionError s3
                 = Some "Could not delete the asset. Please try again."
              /\ truthy (collectionError s3) = true
              /\ deletingCollectionAssetId s3 = None).
Proof.
  split.
  - intros s assetToDelete Hfree.
    destruct (handleDeleteAsset_started s s assetToDelete Hfree)
      as (s1 & Hrun & _ & _ & Htrace).
    exists s1. split; [exact Hrun|]. split; [exact Htrace|].
    intros e s2.
    destruct (handleDeleteAsset_resume_rejected s s2 e)
      as (s3 & Hres & Hlist & Herr & Hmark & _).
    exists s3. split; [exact Hres|].
    split; [exact Hlist|]. split; [rewrite Hlist; reflexivity|].
    split; [exact Herr|]. split; [rewrite Herr; reflexivity | exact Hmark].
  - intros s assetToDelete Hfree.
    destruct (handleDeleteAssetFromCollection_started s s assetToDelete Hfree)
      as (s1 & Hrun & _ & _ & Htrace).
    exists s1. split; [exact Hrun|]. split; [exact Htrace|].
    intros e s2.
    destruct (handleDeleteAssetFromCollection_resume_rejected s s2 e)
      as (s3 & Hres & Hlist & Herr & Hmark & _).
    exists s3. split; [exact Hres|].
    split; [exact Hlist|]. split; [rewrite Hlist; reflexivity|].
    split; [exact Herr|]. split; [rewrite Herr; reflexivity | exact Hmark].
Qed.

Lemma delete_failure_restores_list_and_flags_error_witness :
  exists s1 s3,
    handleDeleteAsset two_assets stored_a two_assets = Ok tt s1
    /\ handleDeleteAsset_resume two_assets (Rejected network_down) s1
       = Ok tt s3
    /\ galleryAssets s3 = [stored_b; stored_a]
    /\ truthy (galleryError s3) = true.
Proof.
  destruct delete_failure_restores_list_and_flags_error as [Hgallery _].
  destruct (Hgallery two_assets stored_a eq_refl) as (s1 & Hrun & _ & Hfail).
  destruct (Hfail network_down s1) as (s3 & Hres & Hlist & _ & _ & Hflag & _).
  exists s1, s3. repeat split; assumption.
Defined.

(** C5. While the deleting marker seen by the handler is set (truthy), a
    delete call returns at once with the store as it was: the list is
    unchanged and no effect, hence no remote delete, is issued. So if a
    first delete leaves the marker set, a second delete called before the
    first resolves changes nothing, and the two calls together issue at
    most one remote delete. Both lists. *)
Theorem delete_in_flight_blocks_second_delete :
  (forall (r s : App) (assetToDelete : GeneratedAsset.t),
     truthy (deletingAssetId r) = true ->
     handleDeleteAsset r assetToDelete s = Ok tt s)
  /\
  (forall (r s : App) (assetToDelete : CollectionAsset.t),
     truthy (deletingCollectionAssetId r) = true ->
     handleDeleteAssetFromCollection r assetToDelete s = Ok tt s)
  /\
  (forall (s s1 : App) (first second : GeneratedAsset.t),
     handleDeleteAsset s first s = Ok tt s1 ->
     truthy (deletingAssetId s1) = true ->
     handleDeleteAsset s1 second s1 = Ok tt s1
     /\ List.length (filter is_remote_delete (trace s1))
        <= S (List.length (filter is_remote_delete (trace s))))
  /\
  (forall (s s1 : App) (first second : CollectionAsset.t),
     handleDeleteAssetFromCollection s first s = Ok tt s1 ->
     truthy (deletingCollectionAssetId s1) = true ->
     handleDeleteAssetFromCollection s1 second s1 = Ok tt s1
     /\ List.length (filter is_remote_delete (trace s1))
        <= S (List.length (filter is_remote_delete (trace s)))).
Proof.
  split; [exact handleDeleteAsset_blocked|].
  split; [exact handleDeleteAssetFromCollection_blocked|].
  split.
  - intros s s1 first second Hfirst Hbusy.
    split; [apply handleDeleteAsset_blocked; exact Hbusy|].
    destruct (truthy (deletingAssetId s)) eqn:Hmark.
    + rewrite (handleDeleteAsset_blocked s s first Hmark) in Hfirst.
      injection Hfirst as <-. lia.
    + destruct (handleDeleteAsset_started s s first Hmark)
        as (s1' & Hrun & _ & _ & Htrace).
      rewrite Hrun in Hfirst. injection Hfirst as <-.
      rewrite Htrace. apply remote_deletes_snoc.
  - intros s s1 first second Hfirst Hbusy.
    split; [apply handleDeleteAssetFromCollection_blocked; exact Hbusy|].
    destruct (truthy (deletingCollectionAssetId s)) eqn:Hmark.
    + rewrite (handleDeleteAssetFromCollection_blocked s s first Hmark)
        in Hfirst.
      injection Hfirst as <-. lia.
    + destruct (handleDeleteAssetFromCollection_started s s first Hmark)
        as (s1' & Hrun & _ & _ & Htrace).
      rewrite Hrun in Hfirst. injection Hfirst as <-.
      rewrite Htrace. apply remote_deletes_snoc.
Qed.

Lemma delete_in_flight_blocks_second_delete_witness :
  handleDeleteAsset two_assets stored_a two_assets = Ok tt delete_in_flight
  /\ handleDeleteAsset delete_in_flight stored_b delete_in_flight
     = Ok tt delete_in_flight
  /\ List.length (filter is_remote_delete (trace delete_in_flight)) <= 1.
Proof.
  destruct delete_in_flight_blocks_second_delete as (_ & _ & Htwice & _).
  destruct (Htwice two_assets delete_in_flight stored_a stored_b
              eq_refl eq_refl) as [Hsecond Hcount].
  split; [reflexivity|]. split; [exact Hsecond | exact Hcount].
Defined.

(** ** The session projector *)

(** The [||] chain of the [user] literal computes the display name of the
    specification. *)
Lemma user_of_session_username (su : SessionUser.t)
  (profile : option Profile.t) :
  User.username (user_of_session su profile)
  = display_name profile (SessionUser.email su).
Proof.
  unfold user_of_session, display_name, email_or_default, js_or.
  destruct su as [uid mail].
  destruct profile as [[[[|c rest]|] avatar_url]|];
    destruct mail as [[|c' rest']|]; reflexivity.
Qed.

(** When the profile query resolves and the marker can be read, the [try]
    block ends normally with the projected user as current user. *)
Lemma processSession_projects_user (PATHS : Paths) (r s : App)
  (su : SessionUser.t) (response : ProfileResponse.t)
  (tourCompleted : option string) :
  exists s',
    processSession PATHS r (Some (Session.mk (Some su)))
      (mkSessionEnv (Fulfilled response) (Fulfilled tourCompleted)) s
    = Ok tt s'
    /\ currentUser s'
       = Some (user_of_session su (ProfileResponse.data response))
    /\ (forall profileError,
          ProfileResponse.error response = Some profileError ->
          In (ConsoleWarn "Could not fetch user profile on auth change:"
                (message profileError)) (trace s')).
Proof.
  unfold processSession, processSession_try, try_catch, bind; simpl.
  unfold fetchGalleryAssets, fetchCollectionAssets, bind.
  destruct (ProfileResponse.error response) as [profileError|];
    destruct (negb (truthy_string (SessionUser.id su))
              || (0 <? List.length (galleryAssets r))%nat && negb false);
    destruct (negb (truthy_string (SessionUser.id su))
              || (0 <? List.length (collectionAssets r))%nat && negb false);
    destruct (isPublicPath PATHS r);
    destruct (truthy tourCompleted);
    simpl;
    (eexists; split; [reflexivity|]; split; [reflexivity|];
     intros pe Hpe; try discriminate Hpe;
     injection Hpe as <-; simpl;
     rewrite ?in_app_iff; simpl; tauto).
Qed.

(** C7. For a session event carrying a user, whose profile query resolves
    (with or without a row, with or without a reported error) and whose
    tour marker can be read, the projector ends normally with a current
    user whose identifier is the session user's, whose email is the session
    email or the empty string, and whose display name is the profile's
    username when a profile row with a non-empty username exists, otherwise
    the email when non-empty, otherwise [ghost_user]. *)
Theorem session_display_name_falls_back :
  forall (PATHS : Paths) (r s : App) (su : SessionUser.t)
         (response : ProfileResponse.t) (tourCompleted : option string),
    exists s' u,
      processSession PATHS r (Some (Session.mk (Some su)))
        (mkSessionEnv (Fulfilled response) (Fulfilled tourCompleted)) s
      = Ok tt s'
      /\ currentUser s' = Some u
      /\ User.id u = SessionUser.id su
      /\ User.email u = nullish (SessionUser.email su) ""
      /\ User.username u
         = display_name (ProfileResponse.data response)
             (SessionUser.email su)
      /\ User.username u
         = match ProfileResponse.data response with
           | Some (Profile.mk (Some (String c rest)) _) => String c rest
           | _ =>
               match SessionUser.email su with
               | Some (String c rest) => String c rest
               | _ => "ghost_user"
               end
           end.
Proof.
  intros PATHS r s su response tourCompleted.
  destruct (processSession_projects_user PATHS r s su response tourCompleted)
    as (s' & Hrun & Huser & _).
  exists s', (user_of_session su (ProfileResponse.data response)).
  split; [exact Hrun|]. split; [exact Huser|].
  split; [reflexivity|]. split; [reflexivity|].
  split; apply user_of_session_username.
Qed.

(** The [try] block throws only for a session with a user, and only what
    the profile query rejected with or what the marker read threw. *)
Lemma processSession_try_thrown (PATHS : Paths) (r s s1 : App)
  (session : option Session.t) (env : SessionEnv) (e : JsError) :
  processSession_try PATHS r session env s = Thrown e s1 ->
  exists su,
    session_user session = Some su
    /\ (profiles_maybeSingle env = Rejected e
        \/ localStorage_getItem env = Rejected e).
Proof.
  unfold processSession_try, project_logged_out, bind.
  destruct (session_user session) as [su|]; simpl.
  - intros Hthrown. exists su. split; [reflexivity|].
    destruct (profiles_maybeSingle env) as [response|e1]; simpl in Hthrown.
    + right.
      unfold fetchGalleryAssets, fetchCollectionAssets, bind in Hthrown.
      destruct (ProfileResponse.error response);
        destruct (negb (truthy_string (SessionUser.id su))
                  || (0 <? List.length (galleryAssets r))%nat && negb false);
        destruct (negb (truthy_string (SessionUser.id su))
                  || (0 <? List.length (collectionAssets r))%nat
                     && negb false);
        destruct (isPublicPath PATHS r);
        destruct (localStorage_getItem env) as [tourCompleted|e2];
        simpl in Hthrown;
        try (destruct (truthy tourCompleted); discriminate Hthrown);
        injection Hthrown as <- _; reflexivity.
    + left. injection Hthrown as <- _. reflexivity.
  - destruct (isPublicPath PATHS r); simpl; discriminate.
Qed.

(** The [catch] block of [processSession] on any store. *)
Lemma processSession_catch (PATHS : Paths) (r s1 : App) (e : JsError) :
  exists s2,
    (console_error "Error in session processing:" (Some e) ;;
     project_logged_out PATHS r) s1 = Ok tt s2
    /\ currentUser s2 = None
    /\ galleryAssets s2 = []
    /\ collectionAssets s2 = []
    /\ (isPublicPath PATHS r = false ->
        pathname s2 = LANDING PATHS
        /\ trace s2
           = (trace s1
              ++ [ConsoleError "Error in session processing:" (Some e);
                  Navigate (LANDING PATHS) true])%list)
    /\ (isPublicPath PATHS r = true ->
        pathname s2 = pathname s1
        /\ trace s2
           = (trace s1
              ++ [ConsoleError "Error in session processing:" (Some e)])%list).
Proof.
  unfold project_logged_out, bind; simpl.
  destruct (isPublicPath PATHS r); simpl.
  - eexists. split; [reflexivity|]. repeat split; try discriminate.
  - eexists. split; [reflexivity|]. repeat split; try discriminate.
    simpl. rewrite <- app_assoc. reflexivity.
Qed.

(** C8, as stated, fails. On the auth route, a session event whose profile
    query rejects makes the [try] block throw; the [catch] block clears the
    projection but, the route being public, issues no navigation: the
    router stays on the auth route, which is not the landing route. *)
Lemma session_error_on_auth_route_does_not_redirect :
  exists s1 s2,
    processSession_try sample_paths (signed_out_at "/auth") session_alice
      env_query_rejects (signed_out_at "/auth") = Thrown network_down s1
    /\ processSession sample_paths (signed_out_at "/auth") session_alice
         env_query_rejects (signed_out_at "/auth") = Ok tt s2
    /\ currentUser s2 = None
    /\ filter is_navigate (trace s2) = []
    /\ pathname s2 = AUTH sample_paths
    /\ pathname s2 <> LANDING sample_paths.
Proof.
  exists (store_of (processSession_try sample_paths (signed_out_at "/auth")
                      session_alice env_query_rejects (signed_out_at "/auth"))).
  exists (store_of (processSession sample_paths (signed_out_at "/auth")
                      session_alice env_query_rejects (signed_out_at "/auth"))).
  split; [reflexivity|].
  split; [reflexivity|].
  split; [reflexivity|].
  split; [reflexivity|].
  split; [reflexivity|].
  vm_compute. discriminate.
Qed.

(** C8, amended. Whenever the [try] block of the projector throws, the
    projector itself returns normally with the logged-out projection:
    current user null and both lists empty, the error logged. It navigates
    to the landing route (replacing the history entry) exactly when the
    route of its render is neither the landing nor the auth route; on those
    two routes it issues no navigation and leaves the router where the
    [try] block left it. A profile query that resolves with an error is
    only logged as a warning and the user is still projected. *)
Theorem session_error_fails_closed :
  (forall (PATHS : Paths) (r s s1 : App) (session : option Session.t)
          (env : SessionEnv) (e : JsError),
     processSession_try PATHS r session env s = Thrown e s1 ->
     exists s2,
       processSession PATHS r session env s = Ok tt s2
       /\ currentUser s2 = None
       /\ galleryAssets s2 = []
       /\ collectionAssets s2 = []
       /\ (isPublicPath PATHS r = false ->
           pathname s2 = LANDING PATHS
           /\ trace s2
              = (trace s1
                 ++ [ConsoleError "Error in session processing:" (Some e);
                     Navigate (LANDING PATHS) true])%list)
       /\ (isPublicPath PATHS r = true ->
           pathname s2 = pathname s1
           /\ trace s2
              = (trace s1
                 ++ [ConsoleError "Error in session processing:"
                       (Some e)])%list))
  /\
  (forall (PATHS : Paths) (r s : App) (su : SessionUser.t)
          (data : option Profile.t) (profileError : JsError)
          (tourCompleted : option string),
     exists s',
       processSession PATHS r (Some (Session.mk (Some su)))
         (mkSessionEnv
            (Fulfilled (ProfileResponse.mk data (Some profileError)))
            (Fulfilled tourCompleted)) s
       = Ok tt s'
       /\ currentUser s' = Some (user_of_session su data)
       /\ In (ConsoleWarn "Could not fetch user profile on auth change:"
                (message profileError)) (trace s')).
Proof.
  split.
  - intros PATHS r s s1 session env e Hthrown.
    destruct (processSession_catch PATHS r s1 e) as (s2 & Hcatch & Hrest).
    exists s2. split; [|exact Hrest].
    unfold processSession, try_catch. rewrite Hthrown. exact Hcatch.
  - intros PATHS r s su data profileError tourCompleted.
    destruct (processSession_projects_user PATHS r s su
                (ProfileResponse.mk data (Some profileError)) tourCompleted)
      as (s' & Hrun & Huser & Hwarn).
    exists s'. split; [exact Hrun|]. split; [exact Huser|].
    apply Hwarn. reflexivity.
Qed.

Lemma session_error_fails_closed_witness :
  exists s2,
    processSession sample_paths two_assets session_alice env_query_rejects
      two_assets = Ok tt s2
    /\ currentUser s2 = None
    /\ galleryAssets s2 = []
    /\ collectionAssets s2 = []
    /\ pathname s2 = "/".
Proof.
  destruct session_error_fails_closed as [Hclosed _].
  destruct (Hclosed sample_paths two_assets two_assets
              (store_of (processSession_try sample_paths two_assets
                           session_alice env_query_rejects two_assets))
              session_alice env_query_rejects network_down eq_refl)
    as (s2 & Hrun & Huser & Hgallery & Hcollection & Hprotected & _).
  exists s2. repeat split; try assumption.
  apply Hprotected. reflexivity.
Defined.

(** ** Logout *)

(** C10. Whatever result [signOut] returns, with an error or without, the
    logout handler returns normally with current user null, both lists
    empty and the router on the landing route; a returned error only adds
    one console entry between the start of the call and the navigation. *)
Theorem logout_clears_local_session_despite_sign_out_error :
  forall (PATHS : Paths) (s : App) (error : option JsError),
    exists s',
      handleLogout PATHS (Fulfilled error) s = Ok tt s'
      /\ currentUser s' = None
      /\ galleryAssets s' = []
      /\ collectionAssets s' = []
      /\ pathname s' = LANDING PATHS
      /\ trace s'
         = (trace s
            ++ [Remote SignOut]
            ++ match error with
               | Some e => [ConsoleError "Error logging out:" (Some e)]
               | None => []
               end
            ++ [Navigate (LANDING PATHS) false])%list.
Proof.
  intros PATHS s error. unfold handleLogout, bind; simpl.
  destruct error as [e|]; simpl.
  - eexists. split; [reflexivity|]. repeat split.
    simpl. rewrite <- !app_assoc. reflexivity.
  - eexists. split; [reflexivity|]. repeat split.
    simpl. rewrite <- !app_assoc. reflexivity.
Qed.

(** A [signOut] promise that rejects (the handler has no [catch]) makes
    the handler's own promise reject with the store untouched apart from
    the log. *)
Lemma handleLogout_rejected (PATHS : Paths) (s : App) (e : JsError) :
  exists s',
    handleLogout PATHS (Rejected e) s = Thrown e s'
    /\ currentUser s' = currentUser s
    /\ galleryAssets s' = galleryAssets s
    /\ collectionAssets s' = collectionAssets s
    /\ pathname s' = pathname s.
Proof.
  eexists. split; [reflexivity|]. repeat split.
Qed.

(** ** The SSR handler *)

Lemma GetSubstitution_dollar_free
  (matched preceding following replacement : string) :
  dollar_free replacement = true ->
  GetSubstitution matched preceding following replacement = replacement.
Proof.
  induction replacement as [|c tl IH]; simpl; intros Hfree.
  - reflexivity.
  - apply andb_true_iff in Hfree as [Hc Htl].
    apply negb_true_iff in Hc. rewrite Hc.
    f_equal. apply IH. exact Htl.
Qed.

Lemma prefix_split (p s : string) :
  prefix p s = true -> s = p ++ drop (String.length p) s.
Proof.
  revert s. induction p as [|c p IH]; intros s Hpre; simpl.
  - destruct s; reflexivity.
  - destruct s as [|d s]; simpl in Hpre; [discriminate|].
    destruct (ascii_dec c d) as [->|_]; [|discriminate].
    f_equal. apply IH. exact Hpre.
Qed.

(** A first occurrence cuts the string in three. *)
Lemma index_split (p s : string) (pos : nat) :
  index 0 p s = Some pos ->
  s = substring 0 pos s ++ p ++ drop (pos + String.length p) s.
Proof.
  revert pos. induction s as [|c s IH]; intros pos Hidx.
  - simpl in Hidx. destruct p; [|discriminate].
    injection Hidx as <-. reflexivity.
  - change (index 0 p (String c s))
      with (if prefix p (String c s) then Some 0
            else match index 0 p s with
                 | Some n => Some (S n)
                 | None => None
                 end) in Hidx.
    destruct (prefix p (String c s)) eqn:Hpre.
    + injection Hidx as <-. simpl substring. simpl plus.
      apply (prefix_split p (String c s)). exact Hpre.
    + destruct (index 0 p s) as [n|] eqn:Hrest; [|discriminate].
      injection Hidx as <-. simpl.
      f_equal. apply IH. reflexivity.
Qed.

(** With a replacement text free of dollar signs, [replace] puts the text
    itself in place of the first occurrence. *)
Lemma String_replace_dollar_free (str searchString replaceValue : string)
  (pos : nat) :
  index 0 searchString str = Some pos ->
  dollar_free replaceValue = true ->
  str = substring 0 pos str ++ searchString
        ++ drop (pos + String.length searchString) str
  /\ String_replace str searchString replaceValue
     = substring 0 pos str ++ replaceValue
       ++ drop (pos + String.length searchString) str.
Proof.
  intros Hidx Hfree. split.
  - apply index_split. exact Hidx.
  - unfold String_replace. rewrite Hidx.
    rewrite GetSubstitution_dollar_free by exact Hfree. reflexivity.
Qed.

(** Any failure of the [try] block is answered with status 500, no header
    set by the handler, and the error's message as the whole body. *)
Lemma ssr_failure_is_500_with_message (env : Ssr.Env) (originalUrl : string)
  (e : JsError) :
  Ssr.render_page env originalUrl = Rejected e ->
  Ssr.handler env originalUrl
  = (Ssr.mkResponse 500 [] (message e), [ConsoleError "SSR Error:" (Some e)]).
Proof.
  intros Hfail. unfold Ssr.handler. rewrite Hfail. reflexivity.
Qed.

(** The [try] block fails exactly when the template read, the import or
    the render call does. *)
Lemma ssr_render_page_rejected (env : Ssr.Env) (originalUrl : string)
  (e : JsError) :
  Ssr.render_page env originalUrl = Rejected e <->
  Ssr.readFileSync_template env = Rejected e
  \/ (exists template,
        Ssr.readFileSync_template env = Fulfilled template
        /\ (Ssr.import_render env = Rejected e
            \/ exists render,
                 Ssr.import_render env = Fulfilled render
                 /\ render originalUrl = Rejected e)).
Proof.
  unfold Ssr.render_page, Ssr.and_then.
  destruct (Ssr.readFileSync_template env) as [template|e1].
  - destruct (Ssr.import_render env) as [render|e2].
    + destruct (render originalUrl) as [appHtml|e3] eqn:Hrender.
      * split; [discriminate|].
        intros [Habs|(t & _ & [Habs|(f & Hf & Habs)])]; try discriminate.
        injection Hf as <-. rewrite Hrender in Habs. discriminate.
      * split.
        -- intros Heq. injection Heq as ->.
           right. exists template. split; [reflexivity|].
           right. exists render. split; [reflexivity | exact Hrender].
        -- intros [Habs|(t & _ & [Habs|(f & Hf & Hrej)])];
             try discriminate.
           injection Hf as <-. rewrite Hrender in Hrej.
           injection Hrej as ->. reflexivity.
    + split.
      * intros Heq. injection Heq as ->.
        right. exists template. split; [reflexivity|].
        left. reflexivity.
      * intros [Habs|(t & _ & [Hrej|(f & Hf & _)])]; try discriminate.
        injection Hrej as ->. reflexivity.
  - split.
    + intros Heq. injection Heq as ->. left. reflexivity.
    + intros [Hrej|(t & Habs & _)]; [|discriminate].
      injection Hrej as ->. reflexivity.
Qed.

(** On success, with an output free of dollar signs and a template that
    contains the token, the response is 200 with the template in which the
    first occurrence of the token is replaced by the output. *)
Lemma ssr_success_dollar_free (env : Ssr.Env) (originalUrl : string)
  (template appHtml : string) (render : string -> Settled string)
  (pos : nat) :
  Ssr.readFileSync_template env = Fulfilled template ->
  Ssr.import_render env = Fulfilled render ->
  render originalUrl = Fulfilled appHtml ->
  index 0 Ssr.ssr_outlet template = Some pos ->
  dollar_free appHtml = true ->
  template = substring 0 pos template ++ Ssr.ssr_outlet
             ++ drop (pos + String.length Ssr.ssr_outlet) template
  /\ Ssr.handler env originalUrl
     = (Ssr.mkResponse 200 [("Content-Type", "text/html")]
          (substring 0 pos template ++ appHtml
           ++ drop (pos + String.length Ssr.ssr_outlet) template),
        []).
Proof.
  intros Htemplate Himport Hrender Hidx Hfree.
  destruct (String_replace_dollar_free template Ssr.ssr_outlet appHtml pos
              Hidx Hfree) as [Hcut Hreplace].
  split; [exact Hcut|].
  unfold Ssr.handler, Ssr.render_page, Ssr.and_then.
  rewrite Htemplate, Himport, Hrender, Hreplace. reflexivity.
Qed.

Example ssr_plain_page :
  Ssr.handler env_plain "/gallery"
  = (Ssr.mkResponse 200 [("Content-Type", "text/html")]
       "<div id='root'><a href='/gallery'>home</a></div>", []).
Proof. reflexivity. Qed.

Example ssr_missing_template :
  Ssr.handler env_no_template "/gallery"
  = (Ssr.mkResponse 500 [] "ENOENT: no such file or directory",
     [ConsoleError "SSR Error:"
        (Some (mkError "ENOENT: no such file or directory"))]).
Proof. reflexivity. Qed.

(** C9. The handler run on a page whose rendered HTML is
    [<span>$$$</span>]: the response is 200, but the body is not the
    template with the token replaced by that output. [replace] with a
    string as second argument expands [$$] to a single dollar sign, so the
    body carries [<span>$$</span>]. *)
Theorem ssr_output_with_dollar_signs_is_altered :
  render_price_tier "/pricing" = Fulfilled "<span>$$$</span>"
  /\ Ssr.handler env_price_tier "/pricing"
     = (Ssr.mkResponse 200 [("Content-Type", "text/html")]
          "<div id='root'><span>$$</span></div>", [])
  /\ Ssr.body (fst (Ssr.handler env_price_tier "/pricing"))
     <> "<div id='root'><span>$$$</span></div>".
Proof.
  split; [reflexivity|]. split; [reflexivity|].
  vm_compute. discriminate.
Qed.

(* ================================================================== *)
(** * Further properties of the handlers *)

(** ** Placeholder identifiers and payloads *)

Lemma map_swap_fresh (A : Type) (key : A -> string) (k : string) (v : A)
  (l : list A) :
  (forall a, In a l -> key a <> k) ->
  map (fun x => if key x =? k then v else x) l = l.
Proof.
  induction l as [|x l IH]; intros Hfresh; simpl.
  - reflexivity.
  - destruct (String.eqb_spec (key x) k) as [Heq|_].
    + exfalso. apply (Hfresh x); [left; reflexivity | exact Heq].
    + f_equal. apply IH. intros a Ha. apply Hfresh. right. exact Ha.
Qed.

Lemma split_lacks (c : ascii) (s : string) :
  lacks c s = true -> split c s = [s].
Proof.
  induction s as [|d s IH]; simpl; intros Hfree.
  - reflexivity.
  - apply andb_true_iff in Hfree as [Hd Hs].
    apply negb_true_iff in Hd. rewrite Hd, (IH Hs). reflexivity.
Qed.

Lemma split_at_first (c : ascii) (head rest : string) :
  lacks c head = true ->
  split c (head ++ String c rest) = head :: split c rest.
Proof.
  induction head as [|d head IH]; simpl; intros Hfree.
  - rewrite Ascii.eqb_refl. reflexivity.
  - apply andb_true_iff in Hfree as [Hd Hs].
    apply negb_true_iff in Hd. rewrite Hd, (IH Hs). reflexivity.
Qed.

Lemma base64_of_data_url (header payload : string) :
  lacks "," header = true ->
  lacks "," payload = true ->
  base64_of (header ++ "," ++ payload) = Some payload
  /\ forall tail,
       base64_of (header ++ "," ++ payload ++ "," ++ tail) = Some payload.
Proof.
  intros Hheader Hpayload. unfold base64_of. split.
  - change (header ++ "," ++ payload)
      with (header ++ String "," payload).
    rewrite (split_at_first _ _ _ Hheader), (split_lacks _ _ Hpayload).
    reflexivity.
  - intros tail.
    change (header ++ "," ++ payload ++ "," ++ tail)
      with (header ++ String "," (payload ++ String "," tail)).
    rewrite (split_at_first _ _ _ Hheader), (split_at_first _ _ _ Hpayload).
    reflexivity.
Qed.

Lemma base64_of_no_comma (image : string) :
  lacks "," image = true -> base64_of image = None.
Proof.
  intros Hfree. unfold base64_of. rewrite (split_lacks _ _ Hfree).
  reflexivity.
Qed.

(** X1. Two saves to one list are given the same placeholder identifier
    exactly when [Date.now()] returned the same reading for both. *)
Theorem placeholder_ids_coincide_iff_same_clock_reading :
  forall clock clock' : Clock,
    (gallery_tempId clock = gallery_tempId clock'
     <-> Date_now clock = Date_now clock')
    /\ (collection_tempId clock = collection_tempId clock'
        <-> Date_now clock = Date_now clock').
Proof.
  intros clock clock'. split; split.
  - apply gallery_tempId_injective.
  - intros Heq. unfold gallery_tempId. rewrite Heq. reflexivity.
  - apply collection_tempId_injective.
  - intros Heq. unfold collection_tempId. rewrite Heq. reflexivity.
Qed.

(** X2. Two saves made at different clock readings on a list that holds
    neither placeholder identifier do not disturb each other: when the
    first remote write fails and the second succeeds with a stored asset,
    the list ends as that asset in front of the list as it was before both
    saves, in whichever order the two writes settle. *)
Theorem concurrent_saves_settle_independently :
  forall (r s : App) (clockA clockB : Clock) (user : User.t)
         (imageA imageB : string) (e : JsError) (realB : GeneratedAsset.t),
    currentUser r = Some user ->
    Date_now clockA <> Date_now clockB ->
    (forall a, In a (galleryAssets s) ->
               GeneratedAsset.id a <> gallery_tempId clockA) ->
    (forall a, In a (galleryAssets s) ->
               GeneratedAsset.id a <> gallery_tempId clockB) ->
    prefix "temp_" (GeneratedAsset.id realB) = false ->
    exists sA sB,
      handleAssetSaved r clockA imageA s = Ok tt sA
      /\ handleAssetSaved r clockB imageB sA = Ok tt sB
      /\ galleryAssets sB
         = gallery_tempAsset user clockB imageB
           :: gallery_tempAsset user clockA imageA :: galleryAssets s
      /\ (exists s1 s2,
            handleAssetSaved_background clockA (Rejected e) sB = Ok tt s1
            /\ handleAssetSaved_background clockB (Fulfilled realB) s1
               = Ok tt s2
            /\ galleryAssets s2 = realB :: galleryAssets s)
      /\ (exists s1 s2,
            handleAssetSaved_background clockB (Fulfilled realB) sB = Ok tt s1
            /\ handleAssetSaved_background clockA (Rejected e) s1 = Ok tt s2
            /\ galleryAssets s2 = realB :: galleryAssets s).
Proof.
  intros r s clockA clockB user imageA imageB e realB
         Hlogged Hclock HfreshA HfreshB Hreal.
  destruct (handleAssetSaved_signed_in r s clockA user imageA Hlogged)
    as (sA & HsaveA & HlistA & _).
  destruct (handleAssetSaved_signed_in r sA clockB user imageB Hlogged)
    as (sB & HsaveB & HlistB & _).
  rewrite HlistA in HlistB.
  exists sA, sB. split; [exact HsaveA|]. split; [exact HsaveB|].
  split; [exact HlistB|].
  assert (Hba : (gallery_tempId clockB =? gallery_tempId clockA) = false).
  { apply String.eqb_neq. intros Heq. apply Hclock. symmetry.
    apply gallery_tempId_injective. exact Heq. }
  assert (Hab : (gallery_tempId clockA =? gallery_tempId clockB) = false).
  { rewrite String.eqb_sym. exact Hba. }
  assert (Hra : (GeneratedAsset.id realB =? gallery_tempId clockA) = false).
  { apply String.eqb_neq. apply unprefixed_is_not_gallery_tempId.
    exact Hreal. }
  split.
  - destruct (handleAssetSaved_background_rejected clockA e sB)
      as (s1 & Hrun1 & Hlist1 & _).
    destruct (handleAssetSaved_background_fulfilled clockB realB s1)
      as (s2 & Hrun2 & Hlist2 & _).
    exists s1, s2. split; [exact Hrun1|]. split; [exact Hrun2|].
    rewrite Hlist2, Hlist1, HlistB.
    unfold gallery_tempAsset.
    cbn [filter map GeneratedAsset.id negb].
    rewrite Hba, String.eqb_refl.
    cbn [filter map GeneratedAsset.id negb].
    rewrite (filter_key_fresh _ GeneratedAsset.id _ _ HfreshA).
    cbn [map GeneratedAsset.id]. rewrite String.eqb_refl.
    rewrite (map_swap_fresh _ GeneratedAsset.id _ realB _ HfreshB).
    reflexivity.
  - destruct (handleAssetSaved_background_fulfilled clockB realB sB)
      as (s1 & Hrun1 & Hlist1 & _).
    destruct (handleAssetSaved_background_rejected clockA e s1)
      as (s2 & Hrun2 & Hlist2 & _).
    exists s1, s2. split; [exact Hrun1|]. split; [exact Hrun2|].
    rewrite Hlist2, Hlist1, HlistB.
    unfold gallery_tempAsset.
    cbn [filter map GeneratedAsset.id negb].
    rewrite String.eqb_refl, Hab.
    rewrite (map_swap_fresh _ GeneratedAsset.id _ realB _ HfreshB).
    cbn [filter map GeneratedAsset.id negb].
    rewrite Hra, String.eqb_refl.
    cbn [filter negb].
    rewrite (filter_key_fresh _ GeneratedAsset.id _ _ HfreshA).
    reflexivity.
Qed.

Lemma concurrent_saves_settle_independently_witness :
  exists sB s1 s2,
    handleAssetSaved two_assets clock_2000 image_b
      (store_of (handleAssetSaved two_assets clock_1000 image_a two_assets))
    = Ok tt sB
    /\ handleAssetSaved_background clock_1000 (Rejected network_down) sB
       = Ok tt s1
    /\ handleAssetSaved_background clock_2000 (Fulfilled stored_b) s1
       = Ok tt s2
    /\ galleryAssets s2 = stored_b :: galleryAssets two_assets.
Proof.
  assert (HfreshA : forall a, In a (galleryAssets two_assets) ->
                      GeneratedAsset.id a <> gallery_tempId clock_1000).
  { intros a [Ha|[Ha|[]]]; subst a; discriminate. }
  assert (HfreshB : forall a, In a (galleryAssets two_assets) ->
                      GeneratedAsset.id a <> gallery_tempId clock_2000).
  { intros a [Ha|[Ha|[]]]; subst a; discriminate. }
  assert (Hclock : Date_now clock_1000 <> Date_now clock_2000)
    by discriminate.
  destruct (concurrent_saves_settle_independently
              two_assets two_assets clock_1000 clock_2000 alice
              image_a image_b network_down stored_b
              eq_refl Hclock HfreshA HfreshB eq_refl)
    as (sA & sB & HsaveA & HsaveB & _ & (s1 & s2 & H1 & H2 & Hlist) & _).
  exists sB, s1, s2.
  rewrite HsaveA. simpl store_of.
  repeat split; assumption.
Defined.

(** X3. For an image given as a data URL, a header without comma, a
    comma, then a payload without comma, both save handlers start their
    remote write with exactly that payload; text after a second comma is
    not sent. *)
Theorem save_sends_text_after_first_comma :
  forall (r s : App) (clock : Clock) (user : User.t)
         (header payload : string),
    currentUser r = Some user ->
    lacks "," header = true ->
    lacks "," payload = true ->
    (exists s1,
       handleAssetSaved r clock (header ++ "," ++ payload) s = Ok tt s1
       /\ trace s1
          = (trace s
             ++ [Remote (SaveAsset (User.id user) (Some payload)
                           "virtual_photoshoot")])%list)
    /\ (forall tail : string,
          exists s1,
            handleAssetSaved r clock
              (header ++ "," ++ payload ++ "," ++ tail) s = Ok tt s1
            /\ trace s1
               = (trace s
                  ++ [Remote (SaveAsset (User.id user) (Some payload)
                                "virtual_photoshoot")])%list)
    /\ (forall (kind : AssetType) (name category : string),
          exists s1,
            handleSaveToCollection r clock
              (AssetData.mk (header ++ "," ++ payload) kind name category) s
            = Ok tt s1
            /\ trace s1
               = (trace s
                  ++ [Remote (SaveAssetToCollection (User.id user)
                                (Some payload) kind name category)])%list).
Proof.
  intros r s clock user header payload Hlogged Hheader Hpayload.
  destruct (base64_of_data_url header payload Hheader Hpayload)
    as [Hone Htwo].
  split; [|split].
  - destruct (handleAssetSaved_signed_in r s clock user
                (header ++ "," ++ payload) Hlogged)
      as (s1 & Hsave & _ & _ & Htrace).
    exists s1. split; [exact Hsave|]. rewrite Htrace, Hone. reflexivity.
  - intros tail.
    destruct (handleAssetSaved_signed_in r s clock user
                (header ++ "," ++ payload ++ "," ++ tail) Hlogged)
      as (s1 & Hsave & _ & _ & Htrace).
    exists s1. split; [exact Hsave|]. rewrite Htrace, Htwo. reflexivity.
  - intros kind name category.
    destruct (handleSaveToCollection_signed_in r s clock user
                (AssetData.mk (header ++ "," ++ payload) kind name category)
                Hlogged)
      as (s1 & Hsave & _ & _ & Htrace).
    exists s1. split; [exact Hsave|].
    rewrite Htrace.
    cbn [AssetData.imageUrl AssetData.asset_type AssetData.item_name
         AssetData.item_category]. rewrite Hone. reflexivity.
Qed.

Lemma save_sends_text_after_first_comma_witness :
  exists s1,
    handleAssetSaved two_assets clock_1000 image_a two_assets = Ok tt s1
    /\ trace s1
       = [Remote (SaveAsset "u-1" (Some "AAAA") "virtual_photoshoot")].
Proof.
  destruct (save_sends_text_after_first_comma
              two_assets two_assets clock_1000 alice
              "data:image/png;base64" "AAAA" eq_refl eq_refl eq_refl)
    as [Hone _].
  exact Hone.
Defined.

(** X4. For an image string without any comma the save still returns
    normally and shows the placeholder with that string as display content,
    and the remote write is started with an undefined payload. Both save
    handlers. *)
Theorem save_without_comma_sends_undefined_payload :
  forall (r s : App) (clock : Clock) (user : User.t) (image : string),
    currentUser r = Some user ->
    lacks "," image = true ->
    (exists s1 first,
       handleAssetSaved r clock image s = Ok tt s1
       /\ galleryAssets s1 = first :: galleryAssets s
       /\ GeneratedAsset.display_url first = image
       /\ trace s1
          = (trace s
             ++ [Remote (SaveAsset (User.id user) None
                           "virtual_photoshoot")])%list)
    /\ (forall (kind : AssetType) (name category : string),
          exists s1 first,
            handleSaveToCollection r clock
              (AssetData.mk image kind name category) s = Ok tt s1
            /\ collectionAssets s1 = first :: collectionAssets s
            /\ CollectionAsset.display_url first = image
            /\ trace s1
               = (trace s
                  ++ [Remote (SaveAssetToCollection (User.id user) None
                                kind name category)])%list).
Proof.
  intros r s clock user image Hlogged Hfree.
  pose proof (base64_of_no_comma image Hfree) as Hnone.
  split.
  - destruct (handleAssetSaved_signed_in r s clock user image Hlogged)
      as (s1 & Hsave & Hlist & _ & Htrace).
    exists s1, (gallery_tempAsset user clock image).
    split; [exact Hsave|]. split; [exact Hlist|].
    split; [reflexivity|]. rewrite Htrace, Hnone. reflexivity.
  - intros kind name category.
    destruct (handleSaveToCollection_signed_in r s clock user
                (AssetData.mk image kind name category) Hlogged)
      as (s1 & Hsave & Hlist & _ & Htrace).
    exists s1,
      (collection_tempAsset user clock
         (AssetData.mk image kind name category)).
    split; [exact Hsave|]. split; [exact Hlist|].
    split; [reflexivity|].
    rewrite Htrace.
    cbn [AssetData.imageUrl AssetData.asset_type AssetData.item_name
         AssetData.item_category]. rewrite Hnone. reflexivity.
Qed.

Lemma save_without_comma_sends_undefined_payload_witness :
  exists s1 first,
    handleAssetSaved two_assets clock_1000 image_without_comma two_assets
    = Ok tt s1
    /\ galleryAssets s1 = first :: galleryAssets two_assets
    /\ GeneratedAsset.display_url first = image_without_comma
    /\ trace s1 = [Remote (SaveAsset "u-1" None "virtual_photoshoot")].
Proof.
  destruct (save_without_comma_sends_undefined_payload
              two_assets two_assets clock_1000 alice image_without_comma
              eq_refl eq_refl) as [Hgallery _].
  exact Hgallery.
Defined.

(** ** Delete: success, absent identifier, release of the guard *)

(** X5. A delete that passes the guard and whose remote delete succeeds
    leaves, with nothing in between, exactly the entries of the pre-delete
    list whose identifier differs from the deleted asset's, in their order;
    every entry carrying that identifier is gone, the marker is null again,
    one remote delete was issued, and an error flag raised earlier is still
    raised. Both lists. *)
Theorem delete_success_removes_every_entry_with_the_id :
  (forall (s : App) (assetToDelete : GeneratedAsset.t),
     truthy (deletingAssetId s) = false ->
     exists s1 s3,
       handleDeleteAsset s assetToDelete s = Ok tt s1
       /\ handleDeleteAsset_resume s (Fulfilled tt) s1 = Ok tt s3
       /\ galleryAssets s3
          = filter (fun asset =>
                      negb (GeneratedAsset.id asset
                              =? GeneratedAsset.id assetToDelete))
                   (galleryAssets s)
       /\ (forall x, In x (galleryAssets s3) <->
                     In x (galleryAssets s)
                     /\ GeneratedAsset.id x <> GeneratedAsset.id assetToDelete)
       /\ deletingAssetId s3 = None
       /\ galleryError s3 = galleryError s
       /\ trace s3
          = (trace s
             ++ [Remote (DeleteAsset (GeneratedAsset.id assetToDelete)
                           (GeneratedAsset.image_url assetToDelete))])%list)
  /\
  (forall (s : App) (assetToDelete : CollectionAsset.t),
     truthy (deletingCollectionAssetId s) = false ->
     exists s1 s3,
       handleDeleteAssetFromCollection s assetToDelete s = Ok tt s1
       /\ handleDeleteAssetFromCollection_resume s (Fulfilled tt) s1
          = Ok tt s3
       /\ collectionAssets s3
          = filter (fun asset =>
                      negb (CollectionAsset.id asset
                              =? CollectionAsset.id assetToDelete))
                   (collectionAssets s)
       /\ (forall x, In x (collectionAssets s3) <->
                     In x (collectionAssets s)
                     /\ CollectionAsset.id x
                        <> CollectionAsset.id assetToDelete)
       /\ deletingCollectionAssetId s3 = None
       /\ collectionError s3 = collectionError s
       /\ trace s3
          = (trace s
             ++ [Remote (DeleteAssetFromCollection
                           (CollectionAsset.id assetToDelete)
                           (CollectionAsset.image_url assetToDelete))])%list).
Proof.
  split.
  - intros s assetToDelete Hfree.
    assert (Herr : galleryError
                     (store_of (handleDeleteAsset s assetToDelete s))
                   = galleryError s).
    { unfold handleDeleteAsset. rewrite Hfree. reflexivity. }
    destruct (handleDeleteAsset_started s s assetToDelete Hfree)
      as (s1 & Hrun & Hlist1 & _ & Htrace1).
    rewrite Hrun in Herr. simpl in Herr.
    destruct (handleDeleteAsset_resume_fulfilled s s1)
      as (s3 & Hres & Hlist3 & Herr3 & Hmark & Htrace3).
    exists s1, s3. split; [exact Hrun|]. split; [exact Hres|].
    rewrite Hlist3, Hlist1, Herr3, Htrace3, Htrace1.
    split; [reflexivity|]. split.
    + intros x. rewrite filter_In. split.
      * intros [Hin Hkeep]. split; [exact Hin|].
        intros Heq. rewrite Heq, String.eqb_refl in Hkeep. discriminate.
      * intros [Hin Hne]. split; [exact Hin|].
        apply String.eqb_neq in Hne. rewrite Hne. reflexivity.
    + split; [exact Hmark|]. split; [exact Herr | reflexivity].
  - intros s assetToDelete Hfree.
    assert (Herr : collectionError
                     (store_of (handleDeleteAssetFromCollection s
                                  assetToDelete s))
                   = collectionError s).
    { unfold handleDeleteAssetFromCollection. rewrite Hfree. reflexivity. }
    destruct (handleDeleteAssetFromCollection_started s s assetToDelete Hfree)
      as (s1 & Hrun & Hlist1 & _ & Htrace1).
    rewrite Hrun in Herr. simpl in Herr.
    destruct (handleDeleteAssetFromCollection_resume_fulfilled s s1)
      as (s3 & Hres & Hlist3 & Herr3 & Hmark & Htrace3).
    exists s1, s3. split; [exact Hrun|]. split; [exact Hres|].
    rewrite Hlist3, Hlist1, Herr3, Htrace3, Htrace1.
    split; [reflexivity|]. split.
    + intros x. rewrite filter_In. split.
      * intros [Hin Hkeep]. split; [exact Hin|].
        intros Heq. rewrite Heq, String.eqb_refl in Hkeep. discriminate.
      * intros [Hin Hne]. split; [exact Hin|].
        apply String.eqb_neq in Hne. rewrite Hne. reflexivity.
    + split; [exact Hmark|]. split; [exact Herr | reflexivity].
Qed.

Lemma delete_success_removes_every_entry_with_the_id_witness :
  exists s1 s3,
    handleDeleteAsset two_assets stored_a two_assets = Ok tt s1
    /\ handleDeleteAsset_resume two_assets (Fulfilled tt) s1 = Ok tt s3
    /\ galleryAssets s3 = [stored_b]
    /\ deletingAssetId s3 = None.
Proof.
  destruct delete_success_removes_every_entry_with_the_id as [Hgallery _].
  destruct (Hgallery two_assets stored_a eq_refl)
    as (s1 & s3 & Hrun & Hres & Hlist & _ & Hmark & _).
  exists s1, s3. repeat split; assumption.
Defined.

(** X6. Deleting an asset whose identifier no entry of the list carries
    leaves the list as it is, and still sets the marker and issues the
    remote delete. Both lists. *)
Theorem delete_of_absent_id_still_calls_remote :
  (forall (r s : App) (assetToDelete : GeneratedAsset.t),
     truthy (deletingAssetId r) = false ->
     (forall x, In x (galleryAssets s) ->
                GeneratedAsset.id x <> GeneratedAsset.id assetToDelete) ->
     exists s1,
       handleDeleteAsset r assetToDelete s = Ok tt s1
       /\ galleryAssets s1 = galleryAssets s
       /\ deletingAssetId s1 = Some (GeneratedAsset.id assetToDelete)
       /\ trace s1
          = (trace s
             ++ [Remote (DeleteAsset (GeneratedAsset.id assetToDelete)
                           (GeneratedAsset.image_url assetToDelete))])%list)
  /\
  (forall (r s : App) (assetToDelete : CollectionAsset.t),
     truthy (deletingCollectionAssetId r) = false ->
     (forall x, In x (collectionAssets s) ->
                CollectionAsset.id x <> CollectionAsset.id assetToDelete) ->
     exists s1,
       handleDeleteAssetFromCollection r assetToDelete s = Ok tt s1
       /\ collectionAssets s1 = collectionAssets s
       /\ deletingCollectionAssetId s1
          = Some (CollectionAsset.id assetToDelete)
       /\ trace s1
          = (trace s
             ++ [Remote (DeleteAssetFromCollection
                           (CollectionAsset.id assetToDelete)
                           (CollectionAsset.image_url assetToDelete))])%list).
Proof.
  split.
  - intros r s assetToDelete Hfree Habsent.
    destruct (handleDeleteAsset_started r s assetToDelete Hfree)
      as (s1 & Hrun & Hlist & Hmark & Htrace).
    exists s1. split; [exact Hrun|].
    rewrite Hlist, (filter_key_fresh _ GeneratedAsset.id _ _ Habsent).
    repeat split; assumption.
  - intros r s assetToDelete Hfree Habsent.
    destruct (handleDeleteAssetFromCollection_started r s assetToDelete Hfree)
      as (s1 & Hrun & Hlist & Hmark & Htrace).
    exists s1. split; [exact Hrun|].
    rewrite Hlist, (filter_key_fresh _ CollectionAsset.id _ _ Habsent).
    repeat split; assumption.
Qed.

Lemma delete_of_absent_id_still_calls_remote_witness :
  exists s1,
    handleDeleteAsset one_pending_save stored_a one_pending_save = Ok tt s1
    /\ galleryAssets s1 = galleryAssets one_pending_save
    /\ deletingAssetId s1 = Some "41d0".
Proof.
  destruct delete_of_absent_id_still_calls_remote as [Hgallery _].
  assert (Habsent : forall x, In x (galleryAssets one_pending_save) ->
                      GeneratedAsset.id x <> GeneratedAsset.id stored_a).
  { intros x [Hx|[]]; subst x; discriminate. }
  destruct (Hgallery one_pending_save one_pending_save stored_a
              eq_refl Habsent) as (s1 & Hrun & Hlist & Hmark & _).
  exists s1. repeat split; assumption.
Defined.

(** X7. Whichever way the remote delete settles, the part after the
    [await] returns normally with the marker null, so that a delete called
    from the next render passes the guard and issues its own remote
    delete. Both lists. *)
Theorem delete_guard_is_released_when_remote_settles :
  (forall (r s2 : App) (deleteAsset : Settled unit),
     exists s3,
       handleDeleteAsset_resume r deleteAsset s2 = Ok tt s3
       /\ deletingAssetId s3 = None
       /\ forall next : GeneratedAsset.t,
            exists s4,
              handleDeleteAsset s3 next s3 = Ok tt s4
              /\ trace s4
                 = (trace s3
                    ++ [Remote (DeleteAsset (GeneratedAsset.id next)
                                  (GeneratedAsset.image_url next))])%list)
  /\
  (forall (r s2 : App) (deleteAssetFromCollection : Settled unit),
     exists s3,
       handleDeleteAssetFromCollection_resume r deleteAssetFromCollection s2
       = Ok tt s3
       /\ deletingCollectionAssetId s3 = None
       /\ forall next : CollectionAsset.t,
            exists s4,
              handleDeleteAssetFromCollection s3 next s3 = Ok tt s4
              /\ trace s4
                 = (trace s3
                    ++ [Remote (DeleteAssetFromCollection
                                  (CollectionAsset.id next)
                                  (CollectionAsset.image_url next))])%list).
Proof.
  split.
  - intros r s2 [[]|e].
    + destruct (handleDeleteAsset_resume_fulfilled r s2)
        as (s3 & Hres & _ & _ & Hmark & _).
      exists s3. split; [exact Hres|]. split; [exact Hmark|].
      intros next.
      destruct (handleDeleteAsset_started s3 s3 next)
        as (s4 & Hrun & _ & _ & Htrace); [rewrite Hmark; reflexivity|].
      exists s4. split; assumption.
    + destruct (handleDeleteAsset_resume_rejected r s2 e)
        as (s3 & Hres & _ & _ & Hmark & _).
      exists s3. split; [exact Hres|]. split; [exact Hmark|].
      intros next.
      destruct (handleDeleteAsset_started s3 s3 next)
        as (s4 & Hrun & _ & _ & Htrace); [rewrite Hmark; reflexivity|].
      exists s4. split; assumption.
  - intros r s2 [[]|e].
    + destruct (handleDeleteAssetFromCollection_resume_fulfilled r s2)
        as (s3 & Hres & _ & _ & Hmark & _).
      exists s3. split; [exact Hres|]. split; [exact Hmark|].
      intros next.
      destruct (handleDeleteAssetFromCollection_started s3 s3 next)
        as (s4 & Hrun & _ & _ & Htrace); [rewrite Hmark; reflexivity|].
      exists s4. split; assumption.
    + destruct (handleDeleteAssetFromCollection_resume_rejected r s2 e)
        as (s3 & Hres & _ & _ & Hmark & _).
      exists s3. split; [exact Hres|]. split; [exact Hmark|].
      intros next.
      destruct (handleDeleteAssetFromCollection_started s3 s3 next)
        as (s4 & Hrun & _ & _ & Htrace); [rewrite Hmark; reflexivity|].
      exists s4. split; assumption.
Qed.

(** X8. A save made while a delete is in flight is lost when that delete
    fails: the rollback writes back the list copied before the delete, so
    the save's placeholder disappears, and when the save's remote write
    then succeeds the swap finds no placeholder and the stored asset never
    enters the list, which stays the pre-delete list. *)
Theorem failed_delete_discards_save_made_in_flight :
  forall (s : App) (assetToDelete : GeneratedAsset.t) (clock : Clock)
         (user : User.t) (image : string) (e : JsError)
         (realAsset : GeneratedAsset.t),
    truthy (deletingAssetId s) = false ->
    currentUser s = Some user ->
    (forall x, In x (galleryAssets s) ->
               GeneratedAsset.id x <> gallery_tempId clock) ->
    exists s1 s2 s3 s4,
      handleDeleteAsset s assetToDelete s = Ok tt s1
      /\ handleAssetSaved s1 clock image s1 = Ok tt s2
      /\ hd_error (galleryAssets s2)
         = Some (gallery_tempAsset user clock image)
      /\ handleDeleteAsset_resume s (Rejected e) s2 = Ok tt s3
      /\ galleryAssets s3 = galleryAssets s
      /\ handleAssetSaved_background clock (Fulfilled realAsset) s3
         = Ok tt s4
      /\ galleryAssets s4 = galleryAssets s.
Proof.
  intros s assetToDelete clock user image e realAsset Hfree Hlogged Hfresh.
  assert (Huser : currentUser (store_of (handleDeleteAsset s assetToDelete s))
                  = Some user).
  { unfold handleDeleteAsset. rewrite Hfree. simpl. exact Hlogged. }
  destruct (handleDeleteAsset_started s s assetToDelete Hfree)
    as (s1 & Hrun & _).
  rewrite Hrun in Huser. simpl in Huser.
  destruct (handleAssetSaved_signed_in s1 s1 clock user image Huser)
    as (s2 & Hsave & Hlist2 & _).
  destruct (handleDeleteAsset_resume_rejected s s2 e)
    as (s3 & Hres & Hlist3 & _).
  destruct (handleAssetSaved_background_fulfilled clock realAsset s3)
    as (s4 & Hdone & Hlist4 & _).
  exists s1, s2, s3, s4.
  split; [exact Hrun|]. split; [exact Hsave|].
  split; [rewrite Hlist2; reflexivity|].
  split; [exact Hres|]. split; [exact Hlist3|].
  split; [exact Hdone|].
  rewrite Hlist4, Hlist3.
  apply (map_swap_fresh _ GeneratedAsset.id). exact Hfresh.
Qed.

Lemma failed_delete_discards_save_made_in_flight_witness :
  exists s1 s2 s3 s4,
    handleDeleteAsset two_assets stored_a two_assets = Ok tt s1
    /\ handleAssetSaved s1 clock_1000 image_a s1 = Ok tt s2
    /\ handleDeleteAsset_resume two_assets (Rejected network_down) s2
       = Ok tt s3
    /\ handleAssetSaved_background clock_1000 (Fulfilled stored_c) s3
       = Ok tt s4
    /\ galleryAssets s4 = [stored_b; stored_a].
Proof.
  assert (Hfresh : forall x, In x (galleryAssets two_assets) ->
                     GeneratedAsset.id x <> gallery_tempId clock_1000).
  { intros x [Hx|[Hx|[]]]; subst x; discriminate. }
  destruct (failed_delete_discards_save_made_in_flight
              two_assets stored_a clock_1000 alice image_a network_down
              stored_c eq_refl eq_refl Hfresh)
    as (s1 & s2 & s3 & s4 & H1 & H2 & _ & H3 & _ & H4 & Hlist).
  exists s1, s2, s3, s4. repeat split; assumption.
Defined.

(** ** Refresh of the two lists *)

Lemma fetchGalleryAssets_skipped (r s : App) (userId : string)
  (forceRefresh : bool) :
  fetch_skipped userId (List.length (galleryAssets r)) forceRefresh = true ->
  fetchGalleryAssets r userId forceRefresh s = Ok tt s.
Proof.
  unfold fetch_skipped, fetchGalleryAssets. intros ->. reflexivity.
Qed.

Lemma fetchGalleryAssets_started (r s : App) (userId : string)
  (forceRefresh : bool) :
  fetch_skipped userId (List.length (galleryAssets r)) forceRefresh = false ->
  exists s1,
    fetchGalleryAssets r userId forceRefresh s = Ok tt s1
    /\ isGalleryLoading s1 = true
    /\ galleryError s1 = None
    /\ galleryAssets s1 = galleryAssets s
    /\ trace s1 = (trace s ++ [Remote (GetAssetsForUser userId)])%list.
Proof.
  unfold fetch_skipped, fetchGalleryAssets. intros ->.
  eexists. split; [reflexivity|]. repeat split.
Qed.

Lemma fetchCollectionAssets_skipped (r s : App) (userId : string)
  (forceRefresh : bool) :
  fetch_skipped userId (List.length (collectionAssets r)) forceRefresh = true ->
  fetchCollectionAssets r userId forceRefresh s = Ok tt s.
Proof.
  unfold fetch_skipped, fetchCollectionAssets. intros ->. reflexivity.
Qed.

Lemma fetchCollectionAssets_started (r s : App) (userId : string)
  (forceRefresh : bool) :
  fetch_skipped userId (List.length (collectionAssets r)) forceRefresh
  = false ->
  exists s1,
    fetchCollectionAssets r userId forceRefresh s = Ok tt s1
    /\ isCollectionLoading s1 = true
    /\ collectionError s1 = None
    /\ collectionAssets s1 = collectionAssets s
    /\ trace s1
       = (trace s ++ [Remote (GetAssetsFromCollection userId)])%list.
Proof.
  unfold fetch_skipped, fetchCollectionAssets. intros ->.
  eexists. split; [reflexivity|]. repeat split.
Qed.

(** The guard skips exactly for an empty user identifier, or for a
    non-empty list that is not forced. *)
Lemma fetch_skipped_false (A : Type) (userId : string) (l : list A)
  (forceRefresh : bool) :
  fetch_skipped userId (List.length l) forceRefresh = false
  <-> truthy_string userId = true /\ (l = [] \/ forceRefresh = true).
Proof.
  unfold fetch_skipped.
  destruct (truthy_string userId); destruct l as [|x l];
    destruct forceRefresh; simpl; split; intros H;
    try reflexivity; try discriminate;
    try (split; [reflexivity|]; (left; reflexivity) || (right; reflexivity));
    destruct H as [H1 [H2|H2]]; discriminate.
Qed.

(** X9. A refresh is started exactly when the user identifier is
    non-empty and either the list of the handler's render is empty or the
    refresh is forced: then it raises the loading flag, clears the list's
    error flag, leaves the list as it is and issues one remote listing.
    Otherwise it changes nothing and issues nothing. Both lists. *)
Theorem refresh_starts_only_when_forced_or_list_empty :
  (forall (r s : App) (userId : string) (forceRefresh : bool),
     (truthy_string userId = true
      /\ (galleryAssets r = [] \/ forceRefresh = true) ->
      exists s1,
        fetchGalleryAssets r userId forceRefresh s = Ok tt s1
        /\ isGalleryLoading s1 = true
        /\ galleryError s1 = None
        /\ galleryAssets s1 = galleryAssets s
        /\ trace s1 = (trace s ++ [Remote (GetAssetsForUser userId)])%list)
     /\ (~ (truthy_string userId = true
            /\ (galleryAssets r = [] \/ forceRefresh = true)) ->
         fetchGalleryAssets r userId forceRefresh s = Ok tt s))
  /\
  (forall (r s : App) (userId : string) (forceRefresh : bool),
     (truthy_string userId = true
      /\ (collectionAssets r = [] \/ forceRefresh = true) ->
      exists s1,
        fetchCollectionAssets r userId forceRefresh s = Ok tt s1
        /\ isCollectionLoading s1 = true
        /\ collectionError s1 = None
        /\ collectionAssets s1 = collectionAssets s
        /\ trace s1
           = (trace s ++ [Remote (GetAssetsFromCollection userId)])%list)
     /\ (~ (truthy_string userId = true
            /\ (collectionAssets r = [] \/ forceRefresh = true)) ->
         fetchCollectionAssets r userId forceRefresh s = Ok tt s)).
Proof.
  split; intros r s userId forceRefresh; split.
  - intros Hdue. apply fetchGalleryAssets_started.
    apply fetch_skipped_false. exact Hdue.
  - intros Hnot. apply fetchGalleryAssets_skipped.
    destruct (fetch_skipped userId (List.length (galleryAssets r))
                forceRefresh) eqn:Hskip; [reflexivity|].
    exfalso. apply Hnot. apply fetch_skipped_false in Hskip. exact Hskip.
  - intros Hdue. apply fetchCollectionAssets_started.
    apply fetch_skipped_false. exact Hdue.
  - intros Hnot. apply fetchCollectionAssets_skipped.
    destruct (fetch_skipped userId (List.length (collectionAssets r))
                forceRefresh) eqn:Hskip; [reflexivity|].
    exfalso. apply Hnot. apply fetch_skipped_false in Hskip. exact Hskip.
Qed.

Lemma refresh_starts_only_when_forced_or_list_empty_witness :
  (exists s1,
     fetchGalleryAssets two_assets "u-1" true two_assets = Ok tt s1
     /\ isGalleryLoading s1 = true
     /\ trace s1 = [Remote (GetAssetsForUser "u-1")])
  /\ fetchGalleryAssets two_assets "u-1" false two_assets = Ok tt two_assets.
Proof.
  destruct refresh_starts_only_when_forced_or_list_empty as [Hgallery _].
  destruct (Hgallery two_assets two_assets "u-1" true) as [Hforced _].
  destruct (Hgallery two_assets two_assets "u-1" false) as [_ Hskipped].
  split.
  - destruct Hforced as (s1 & Hrun & Hloading & _ & _ & Htrace).
    + split; [reflexivity | right; reflexivity].
    + exists s1. repeat split; assumption.
  - apply Hskipped. intros [_ [Hempty|Hforce]]; discriminate.
Defined.

(** X10. A refresh that was started ends, with nothing in between, in one
    of two ways. When the remote listing succeeds the list becomes exactly
    the list returned, whatever it held, with no error flag and the
    loading flag down. When it fails the list is the one from before the
    refresh, the error flag carries the load-failure message and the
    loading flag is down. Both lists. *)
Theorem refresh_outcome_replaces_list_or_flags_error :
  (forall (r s : App) (userId : string) (forceRefresh : bool),
     truthy_string userId = true ->
     galleryAssets r = [] \/ forceRefresh = true ->
     exists s1,
       fetchGalleryAssets r userId forceRefresh s = Ok tt s1
       /\ (forall userAssets : list GeneratedAsset.t,
             exists s3,
               fetchGalleryAssets_resume (Fulfilled userAssets) s1 = Ok tt s3
               /\ galleryAssets s3 = userAssets
               /\ galleryError s3 = None
               /\ isGalleryLoading s3 = false)
       /\ (forall e : JsError,
             exists s3,
               fetchGalleryAssets_resume (Rejected e) s1 = Ok tt s3
               /\ galleryAssets s3 = galleryAssets s
               /\ galleryError s3
                  = Some "Could not load your gallery. Please try again later."
               /\ isGalleryLoading s3 = false))
  /\
  (forall (r s : App) (userId : string) (forceRefresh : bool),
     truthy_string userId = true ->
     collectionAssets r = [] \/ forceRefresh = true ->
     exists s1,
       fetchCollectionAssets r userId forceRefresh s = Ok tt s1
       /\ (forall userAssets : list CollectionAsset.t,
             exists s3,
               fetchCollectionAssets_resume (Fulfilled userAssets) s1
               = Ok tt s3
               /\ collectionAssets s3 = userAssets
               /\ collectionError s3 = None
               /\ isCollectionLoading s3 = false)
       /\ (forall e : JsError,
             exists s3,
               fetchCollectionAssets_resume (Rejected e) s1 = Ok tt s3
               /\ collectionAssets s3 = collectionAssets s
               /\ collectionError s3
                  = Some
                      "Could not load your asset collection. Please try again later."
               /\ isCollectionLoading s3 = false)).
Proof.
  split; intros r s userId forceRefresh Hid Hdue.
  - destruct (fetchGalleryAssets_started r s userId forceRefresh)
      as (s1 & Hrun & _ & Herr & Hlist & _).
    { apply fetch_skipped_false. split; assumption. }
    exists s1. split; [exact Hrun|]. split.
    + intros userAssets. eexists. split; [reflexivity|].
      simpl. repeat split. exact Herr.
    + intros e. eexists. split; [reflexivity|].
      simpl. repeat split. exact Hlist.
  - destruct (fetchCollectionAssets_started r s userId forceRefresh)
      as (s1 & Hrun & _ & Herr & Hlist & _).
    { apply fetch_skipped_false. split; assumption. }
    exists s1. split; [exact Hrun|]. split.
    + intros userAssets. eexists. split; [reflexivity|].
      simpl. repeat split. exact Herr.
    + intros e. eexists. split; [reflexivity|].
      simpl. repeat split. exact Hlist.
Qed.

Lemma refresh_outcome_replaces_list_or_flags_error_witness :
  exists s1 s3,
    fetchGalleryAssets one_pending_save "u-1" true one_pending_save
    = Ok tt s1
    /\ fetchGalleryAssets_resume (Fulfilled [stored_a]) s1 = Ok tt s3
    /\ galleryAssets s3 = [stored_a]
    /\ isGalleryLoading s3 = false.
Proof.
  destruct refresh_outcome_replaces_list_or_flags_error as [Hgallery _].
  destruct (Hgallery one_pending_save one_pending_save "u-1" true
              eq_refl (or_intror eq_refl)) as (s1 & Hrun & Hok & _).
  destruct (Hok [stored_a]) as (s3 & Hres & Hlist & _ & Hloading).
  exists s1, s3. repeat split; assumption.
Defined.

(** ** Session events *)

(** The projector on a session with a user, a resolved profile query and a
    readable marker: the store it leaves and the effects it issues. *)
Lemma processSession_signed_in_run (PATHS : Paths) (r s : App)
  (su : SessionUser.t) (response : ProfileResponse.t)
  (tourCompleted : option string) :
  exists s',
    processSession PATHS r (Some (Session.mk (Some su)))
      (mkSessionEnv (Fulfilled response) (Fulfilled tourCompleted)) s
    = Ok tt s'
    /\ trace s'
       = (trace s ++ session_effects PATHS r su response tourCompleted)%list
    /\ pathname s' = (if isPublicPath PATHS r then HOME PATHS else pathname s)
    /\ galleryAssets s' = galleryAssets s
    /\ collectionAssets s' = collectionAssets s
    /\ isTourActive s' = isTourActive s.
Proof.
  unfold processSession, processSession_try, try_catch, bind; simpl.
  unfold fetchGalleryAssets, fetchCollectionAssets, bind.
  unfold session_effects, fetch_skipped.
  destruct (ProfileResponse.error response) as [profileError|];
    destruct (negb (truthy_string (SessionUser.id su))
              || (0 <? List.length (galleryAssets r))%nat && negb false);
    destruct (negb (truthy_string (SessionUser.id su))
              || (0 <? List.length (collectionAssets r))%nat && negb false);
    destruct (isPublicPath PATHS r);
    destruct (truthy tourCompleted);
    simpl;
    (eexists; split; [reflexivity|]; simpl;
     rewrite <- ?app_assoc; simpl; rewrite ?app_nil_r;
     repeat split; reflexivity).
Qed.

(** The projector never rejects: whatever its [try] block does, the
    function returns. *)
Lemma processSession_returns (PATHS : Paths) (r s : App)
  (session : option Session.t) (env : SessionEnv) :
  exists s', processSession PATHS r session env s = Ok tt s'.
Proof.
  unfold processSession, try_catch.
  destruct (processSession_try PATHS r session env s) as [[] s1|e s1].
  - exists s1. reflexivity.
  - destruct (processSession_catch PATHS r s1 e) as (s2 & Hcatch & _).
    exists s2. exact Hcatch.
Qed.

(** X11. A session event without a user (no session, or a session with
    no user) starts no profile query and reads no marker: the projector
    returns with current user null and both lists empty, and navigates to
    the landing route, replacing the history entry, exactly when the route
    of its render is neither the landing nor the auth route; on those two
    routes the router and the effect log are untouched. *)
Theorem signed_out_event_projects_logged_out :
  forall (PATHS : Paths) (r s : App) (session : option Session.t)
         (env : SessionEnv),
    session_user session = None ->
    exists s',
      processSession PATHS r session env s = Ok tt s'
      /\ currentUser s' = None
      /\ galleryAssets s' = []
      /\ collectionAssets s' = []
      /\ (isPublicPath PATHS r = true ->
          pathname s' = pathname s /\ trace s' = trace s)
      /\ (isPublicPath PATHS r = false ->
          pathname s' = LANDING PATHS
          /\ trace s' = (trace s ++ [Navigate (LANDING PATHS) true])%list).
Proof.
  intros PATHS r s session env Hnone.
  unfold processSession, processSession_try, try_catch.
  rewrite Hnone. unfold project_logged_out, bind; simpl.
  destruct (isPublicPath PATHS r); simpl;
    (eexists; split; [reflexivity|]; repeat split; try discriminate).
Qed.

Lemma signed_out_event_projects_logged_out_witness :
  exists s',
    processSession sample_paths two_assets None env_query_rejects two_assets
    = Ok tt s'
    /\ currentUser s' = None
    /\ galleryAssets s' = []
    /\ pathname s' = "/"
    /\ trace s' = [Navigate "/" true].
Proof.
  destruct (signed_out_event_projects_logged_out sample_paths two_assets
              two_assets None env_query_rejects eq_refl)
    as (s' & Hrun & Huser & Hgallery & _ & _ & Hprotected).
  destruct (Hprotected eq_refl) as [Hpath Htrace].
  exists s'. repeat split; assumption.
Defined.

(** X12. A session event with a user, whose profile query resolves and
    whose marker can be read, navigates at most once: to the home route,
    replacing the history entry, when the route of its render is the
    landing or the auth route, and nowhere otherwise. It sets the tour
    timer (500 ms) exactly when the stored marker is null or empty, and
    does not itself show the tour. *)
Theorem signed_in_event_navigates_home_from_public_routes :
  forall (PATHS : Paths) (r s : App) (su : SessionUser.t)
         (response : ProfileResponse.t) (tourCompleted : option string),
    exists s' effects,
      processSession PATHS r (Some (Session.mk (Some su)))
        (mkSessionEnv (Fulfilled response) (Fulfilled tourCompleted)) s
      = Ok tt s'
      /\ trace s' = (trace s ++ effects)%list
      /\ filter is_navigate effects
         = (if isPublicPath PATHS r then [Navigate (HOME PATHS) true]
            else [])
      /\ pathname s'
         = (if isPublicPath PATHS r then HOME PATHS else pathname s)
      /\ (In (SetTimeout_tour 500) effects <-> truthy tourCompleted = false)
      /\ isTourActive s' = isTourActive s.
Proof.
  intros PATHS r s su response tourCompleted.
  destruct (processSession_signed_in_run PATHS r s su response tourCompleted)
    as (s' & Hrun & Htrace & Hpath & _ & _ & Htour).
  exists s', (session_effects PATHS r su response tourCompleted).
  split; [exact Hrun|]. split; [exact Htrace|].
  split; [|split; [exact Hpath|split; [|exact Htour]]].
  - unfold session_effects.
    destruct (ProfileResponse.error response);
      destruct (fetch_skipped (SessionUser.id su)
                  (List.length (galleryAssets r)) false);
      destruct (fetch_skipped (SessionUser.id su)
                  (List.length (collectionAssets r)) false);
      destruct (isPublicPath PATHS r);
      destruct (truthy tourCompleted); reflexivity.
  - unfold session_effects.
    destruct (ProfileResponse.error response);
      destruct (fetch_skipped (SessionUser.id su)
                  (List.length (galleryAssets r)) false);
      destruct (fetch_skipped (SessionUser.id su)
                  (List.length (collectionAssets r)) false);
      destruct (isPublicPath PATHS r);
      destruct (truthy tourCompleted); simpl;
      intuition (try discriminate; try congruence).
Qed.

(** X13. A session event with a user starts the listing of a list
    exactly when the user identifier is non-empty and that list is empty
    in the render the projector was created in; the lists of the store are
    not changed by the event itself. *)
Theorem signed_in_event_refreshes_only_empty_lists :
  forall (PATHS : Paths) (r s : App) (su : SessionUser.t)
         (response : ProfileResponse.t) (tourCompleted : option string),
    exists s' effects,
      processSession PATHS r (Some (Session.mk (Some su)))
        (mkSessionEnv (Fulfilled response) (Fulfilled tourCompleted)) s
      = Ok tt s'
      /\ trace s' = (trace s ++ effects)%list
      /\ (In (Remote (GetAssetsForUser (SessionUser.id su))) effects
          <-> truthy_string (SessionUser.id su) = true
              /\ galleryAssets r = [])
      /\ (In (Remote (GetAssetsFromCollection (SessionUser.id su))) effects
          <-> truthy_string (SessionUser.id su) = true
              /\ collectionAssets r = [])
      /\ galleryAssets s' = galleryAssets s
      /\ collectionAssets s' = collectionAssets s.
Proof.
  intros PATHS r s su response tourCompleted.
  destruct (processSession_signed_in_run PATHS r s su response tourCompleted)
    as (s' & Hrun & Htrace & _ & Hgallery & Hcollection & _).
  exists s', (session_effects PATHS r su response tourCompleted).
  split; [exact Hrun|]. split; [exact Htrace|].
  assert (Hg : fetch_skipped (SessionUser.id su)
                 (List.length (galleryAssets r)) false = false
               <-> truthy_string (SessionUser.id su) = true
                   /\ galleryAssets r = []).
  { rewrite fetch_skipped_false. intuition discriminate. }
  assert (Hc : fetch_skipped (SessionUser.id su)
                 (List.length (collectionAssets r)) false = false
               <-> truthy_string (SessionUser.id su) = true
                   /\ collectionAssets r = []).
  { rewrite fetch_skipped_false. intuition discriminate. }
  split; [|split; [|split; [exact Hgallery | exact Hcollection]]].
  - rewrite <- Hg. unfold session_effects.
    destruct (ProfileResponse.error response);
      destruct (fetch_skipped (SessionUser.id su)
                  (List.length (galleryAssets r)) false);
      destruct (fetch_skipped (SessionUser.id su)
                  (List.length (collectionAssets r)) false);
      destruct (isPublicPath PATHS r);
      destruct (truthy tourCompleted); simpl;
      intuition (try discriminate; try congruence).
  - rewrite <- Hc. unfold session_effects.
    destruct (ProfileResponse.error response);
      destruct (fetch_skipped (SessionUser.id su)
                  (List.length (galleryAssets r)) false);
      destruct (fetch_skipped (SessionUser.id su)
                  (List.length (collectionAssets r)) false);
      destruct (isPublicPath PATHS r);
      destruct (truthy tourCompleted); simpl;
      intuition (try discriminate; try congruence).
Qed.

(** ** The tour marker and the initial session *)

Lemma getItem_setItem (key value : string) (storage : Storage) :
  getItem key (setItem key value storage) = Some value.
Proof.
  induction storage as [|[k v] rest IH]; simpl.
  - rewrite String.eqb_refl. reflexivity.
  - destruct (String.eqb_spec k key) as [Heq|Hne]; simpl.
    + subst k. rewrite String.eqb_refl. reflexivity.
    + apply String.eqb_neq in Hne. rewrite Hne. exact IH.
Qed.

Lemma getItem_setItem_other (key other value : string) (storage : Storage) :
  other <> key ->
  getItem other (setItem key value storage) = getItem other storage.
Proof.
  intros Hother. induction storage as [|[k v] rest IH]; simpl.
  - destruct (String.eqb_spec key other) as [Heq|_]; [|reflexivity].
    exfalso. apply Hother. symmetry. exact Heq.
  - destruct (String.eqb_spec k key) as [Heq|Hne]; simpl.
    + subst k.
      destruct (String.eqb_spec key other) as [Heq|_]; [|reflexivity].
      exfalso. apply Hother. symmetry. exact Heq.
    + rewrite IH. reflexivity.
Qed.

(** X14. Closing the tour hides the overlay and writes the marker without
    touching any other stored key; a session event that afterwards reads
    the marker from that storage sets no tour timer, whatever the storage
    held before. *)
Theorem tour_closed_once_is_not_scheduled_again :
  forall (PATHS : Paths) (r s s0 : App) (su : SessionUser.t)
         (response : ProfileResponse.t) (storage : Storage),
    exists storage' s1,
      handleTourClose storage s0 = (storage', Ok tt s1)
      /\ isTourActive s1 = false
      /\ getItem tour_key storage' = Some "true"
      /\ (forall key, key <> tour_key ->
                      getItem key storage' = getItem key storage)
      /\ exists s' effects,
           processSession PATHS r (Some (Session.mk (Some su)))
             (env_with_storage (Fulfilled response) storage') s
           = Ok tt s'
           /\ trace s' = (trace s ++ effects)%list
           /\ ~ In (SetTimeout_tour 500) effects.
Proof.
  intros PATHS r s s0 su response storage.
  exists (setItem tour_key "true" storage).
  eexists. split; [reflexivity|]. split; [reflexivity|].
  split; [apply getItem_setItem|].
  split; [intros key Hkey; apply getItem_setItem_other; exact Hkey|].
  unfold env_with_storage. rewrite getItem_setItem.
  destruct (processSession_signed_in_run PATHS r s su response (Some "true"))
    as (s' & Hrun & Htrace & _).
  exists s', (session_effects PATHS r su response (Some "true")).
  split; [exact Hrun|]. split; [exact Htrace|].
  unfold session_effects.
  destruct (ProfileResponse.error response);
    destruct (fetch_skipped (SessionUser.id su)
                (List.length (galleryAssets r)) false);
    destruct (fetch_skipped (SessionUser.id su)
                (List.length (collectionAssets r)) false);
    destruct (isPublicPath PATHS r); simpl;
    intuition (try discriminate; try congruence).
Qed.

(** The projector on an event without a user, on any store. *)
Lemma processSession_signed_out_run (PATHS : Paths) (r s : App)
  (env : SessionEnv) :
  exists s',
    processSession PATHS r None env s = Ok tt s'
    /\ currentUser s' = None
    /\ galleryAssets s' = []
    /\ collectionAssets s' = []
    /\ loading s' = loading s
    /\ filter is_remote (trace s') = filter is_remote (trace s)
    /\ (forall x, In x (trace s) -> In x (trace s')).
Proof.
  unfold processSession, processSession_try, try_catch; simpl.
  unfold project_logged_out, bind; simpl.
  destruct (isPublicPath PATHS r); simpl.
  - eexists. split; [reflexivity|]. repeat split. intros x Hx. exact Hx.
  - eexists. split; [reflexivity|]. simpl. repeat split.
    + rewrite filter_app. simpl. apply app_nil_r.
    + intros x Hx. apply in_or_app. left. exact Hx.
Qed.

(** The whole projector is its part before the [await] followed, on the
    same store, by its part after it. *)
Lemma processSession_splits_at_await (PATHS : Paths) (r s : App)
  (session : option Session.t) (su : SessionUser.t) (env : SessionEnv) :
  session_user session = Some su ->
  processSession PATHS r session env s
  = (processSession_start PATHS r session env ;;
     processSession_resume PATHS r su env) s.
Proof.
  intros Huser.
  unfold processSession, processSession_try, processSession_start,
    processSession_resume, try_catch, bind.
  rewrite Huser. reflexivity.
Qed.

(** X15. When the initial [getSession] settles, the chain always ends
    with the loading flag down. If [getSession] was rejected, the error is
    logged and the event is handled as one without a user: current user
    null, both lists empty, no remote call started. If it resolved with a
    session that carries a user, the chain starts the profile query of the
    projector and, besides that and the loading flag, changes nothing: the
    projection itself runs when the query settles. *)
Theorem initial_session_always_ends_loading :
  forall (PATHS : Paths) (r s : App)
         (getSession : Settled (option Session.t)) (env : SessionEnv),
    exists s',
      initial_session PATHS r getSession env s = Ok tt s'
      /\ loading s' = false
      /\ (forall e, getSession = Rejected e ->
            currentUser s' = None
            /\ galleryAssets s' = []
            /\ collectionAssets s' = []
            /\ In (ConsoleError "Error fetching initial session:" (Some e))
                  (trace s')
            /\ filter is_remote (trace s') = filter is_remote (trace s))
      /\ (forall session su,
            getSession = Fulfilled session ->
            session_user session = Some su ->
            currentUser s' = currentUser s
            /\ galleryAssets s' = galleryAssets s
            /\ collectionAssets s' = collectionAssets s
            /\ pathname s' = pathname s
            /\ trace s'
               = (trace s
                  ++ [Remote (SelectProfile (SessionUser.id su))])%list).
Proof.
  intros PATHS r s getSession env.
  destruct getSession as [session|e].
  - unfold initial_session, processSession_start.
    destruct (session_user session) as [su|] eqn:Huser.
    + eexists. split; [reflexivity|]. split; [reflexivity|].
      split; [intros e He; discriminate He|].
      intros session' su' Hsession Hsu.
      injection Hsession as <-. rewrite Huser in Hsu.
      injection Hsu as <-. repeat split.
    + destruct (processSession_returns PATHS r s session env)
        as (s1 & Hrun).
      unfold bind. rewrite Hrun.
      eexists. split; [reflexivity|]. split; [reflexivity|].
      split; [intros e He; discriminate He|].
      intros session' su' Hsession Hsu.
      injection Hsession as <-. rewrite Huser in Hsu. discriminate Hsu.
  - unfold initial_session, bind. simpl.
    match goal with
    | |- context [processSession PATHS r None env ?s0] =>
        destruct (processSession_signed_out_run PATHS r s0 env)
          as (s1 & Hrun & Huser & Hgallery & Hcollection & _ & Hremote & Hin)
    end.
    rewrite Hrun.
    eexists. split; [reflexivity|]. split; [reflexivity|].
    split.
    + intros e' He'. injection He' as <-. simpl.
      split; [exact Huser|]. split; [exact Hgallery|].
      split; [exact Hcollection|]. split.
      * apply Hin. simpl. apply in_or_app. right. left. reflexivity.
      * rewrite Hremote. simpl. rewrite filter_app. simpl.
        apply app_nil_r.
    + intros session su Habs. discriminate Habs.
Qed.

Lemma initial_session_always_ends_loading_witness :
  (exists s',
     initial_session sample_paths two_assets (Rejected network_down)
       env_query_rejects two_assets = Ok tt s'
     /\ loading s' = false
     /\ currentUser s' = None
     /\ galleryAssets s' = [])
  /\ (exists s',
        initial_session sample_paths two_assets (Fulfilled session_alice)
          env_query_rejects two_assets = Ok tt s'
        /\ loading s' = false
        /\ galleryAssets s' = [stored_b; stored_a]
        /\ trace s' = [Remote (SelectProfile "u-1")]).
Proof.
  split.
  - destruct (initial_session_always_ends_loading sample_paths two_assets
                two_assets (Rejected network_down) env_query_rejects)
      as (s' & Hrun & Hloading & Hrejected & _).
    destruct (Hrejected network_down eq_refl) as (Huser & Hgallery & _).
    exists s'. repeat split; assumption.
  - destruct (initial_session_always_ends_loading sample_paths two_assets
                two_assets (Fulfilled session_alice) env_query_rejects)
      as (s' & Hrun & Hloading & _ & Hstarted).
    destruct (Hstarted session_alice
                (SessionUser.mk "u-1" (Some "alice@example.com"))
                eq_refl eq_refl)
      as (_ & Hgallery & _ & _ & Htrace).
    exists s'. repeat split; assumption.
Defined.

(** ** More on the SSR handler *)

(** X16. The steps of the [try] block run in the order template read,
    import, render call, and the first one that throws an [Error] decides
    the answer: status 500 with that error's message as body, no header
    set, the error logged, and no later step reached (a template that
    cannot be read is reported even when the import would fail too, and
    [render] is not called). When no step throws, the answer is 200 with
    the HTML content type, nothing logged, and
    [template.replace(token, appHtml)] as body. *)
Theorem ssr_first_failing_step_decides_the_answer :
  forall (env : Ssr.Env) (originalUrl : string),
    (forall e,
       Ssr.readFileSync_template env = Rejected e ->
       Ssr.handler env originalUrl
       = (Ssr.mkResponse 500 [] (message e),
          [ConsoleError "SSR Error:" (Some e)]))
    /\ (forall template e,
          Ssr.readFileSync_template env = Fulfilled template ->
          Ssr.import_render env = Rejected e ->
          Ssr.handler env originalUrl
          = (Ssr.mkResponse 500 [] (message e),
             [ConsoleError "SSR Error:" (Some e)]))
    /\ (forall template render e,
          Ssr.readFileSync_template env = Fulfilled template ->
          Ssr.import_render env = Fulfilled render ->
          render originalUrl = Rejected e ->
          Ssr.handler env originalUrl
          = (Ssr.mkResponse 500 [] (message e),
             [ConsoleError "SSR Error:" (Some e)]))
    /\ (forall template render appHtml,
          Ssr.readFileSync_template env = Fulfilled template ->
          Ssr.import_render env = Fulfilled render ->
          render originalUrl = Fulfilled appHtml ->
          Ssr.handler env originalUrl
          = (Ssr.mkResponse 200 [("Content-Type", "text/html")]
               (String_replace template Ssr.ssr_outlet appHtml), [])).
Proof.
  intros env originalUrl.
  unfold Ssr.handler, Ssr.render_page, Ssr.and_then.
  split; [|split; [|split]].
  - intros e ->. reflexivity.
  - intros template e -> ->. reflexivity.
  - intros template render e -> -> ->. reflexivity.
  - intros template render appHtml -> -> ->. reflexivity.
Qed.

Lemma ssr_first_failing_step_decides_the_answer_witness :
  Ssr.handler env_no_template_no_module "/gallery"
  = (Ssr.mkResponse 500 [] "ENOENT: no such file or directory",
     [ConsoleError "SSR Error:"
        (Some (mkError "ENOENT: no such file or directory"))]).
Proof.
  destruct (ssr_first_failing_step_decides_the_answer
              env_no_template_no_module "/gallery") as [Hread _].
  exact (Hread (mkError "ENOENT: no such file or directory") eq_refl).
Defined.

(** X17. When the template does not contain the token, a successful
    render is answered with status 200 and the template itself as body:
    the rendered HTML appears nowhere in the response. *)
Theorem ssr_template_without_outlet_is_served_unchanged :
  forall (env : Ssr.Env) (originalUrl template appHtml : string)
         (render : string -> Settled string),
    Ssr.readFileSync_template env = Fulfilled template ->
    Ssr.import_render env = Fulfilled render ->
    render originalUrl = Fulfilled appHtml ->
    includes Ssr.ssr_outlet template = false ->
    Ssr.handler env originalUrl
    = (Ssr.mkResponse 200 [("Content-Type", "text/html")] template, []).
Proof.
  intros env originalUrl template appHtml render
         Htemplate Himport Hrender Hnone.
  unfold Ssr.handler, Ssr.render_page, Ssr.and_then.
  rewrite Htemplate, Himport, Hrender.
  unfold String_replace. unfold includes in Hnone.
  destruct (index 0 Ssr.ssr_outlet template); [discriminate|reflexivity].
Qed.

Lemma ssr_template_without_outlet_is_served_unchanged_witness :
  Ssr.handler env_no_outlet "/gallery"
  = (Ssr.mkResponse 200 [("Content-Type", "text/html")]
       "<div id='root'></div>", []).
Proof.
  exact (ssr_template_without_outlet_is_served_unchanged env_no_outlet
           "/gallery" "<div id='root'></div>"
           "<a href='/gallery'>home</a>" render_plain
           eq_refl eq_refl eq_refl eq_refl).
Defined.

(** X18. When the rendered HTML contains no dollar sign and the template
    contains the token, the body is the template with its first occurrence
    of the token, and only that one, replaced by the rendered HTML: the
    text before it (in which the token does not start anywhere) and all
    text after it, further tokens included, are kept as they are. *)
Theorem ssr_replaces_first_outlet_only :
  forall (env : Ssr.Env) (originalUrl template appHtml : string)
         (render : string -> Settled string) (pos : nat),
    Ssr.readFileSync_template env = Fulfilled template ->
    Ssr.import_render env = Fulfilled render ->
    render originalUrl = Fulfilled appHtml ->
    index 0 Ssr.ssr_outlet template = Some pos ->
    dollar_free appHtml = true ->
    exists before after,
      template = before ++ Ssr.ssr_outlet ++ after
      /\ String.length before = pos
      /\ (forall p, p < pos ->
            substring p (String.length Ssr.ssr_outlet) template
            <> Ssr.ssr_outlet)
      /\ Ssr.handler env originalUrl
         = (Ssr.mkResponse 200 [("Content-Type", "text/html")]
              (before ++ appHtml ++ after), []).
Proof.
  intros env originalUrl template appHtml render pos
         Htemplate Himport Hrender Hidx Hfree.
  destruct (String_replace_dollar_free template Ssr.ssr_outlet appHtml pos
              Hidx Hfree) as [Hcut Hreplace].
  exists (substring 0 pos template),
         (drop (pos + String.length Ssr.ssr_outlet) template).
  split; [exact Hcut|]. split; [|split].
  - assert (Hlen : forall (s : string) (n : nat),
              n <= String.length s -> String.length (substring 0 n s) = n).
    { induction s as [|c s IH]; intros [|n] Hn; simpl in *;
        try reflexivity; try lia.
      f_equal. apply IH. lia. }
    apply Hlen.
    assert (Hbound : forall (p s : string) (n : nat),
              index 0 p s = Some n -> n <= String.length s).
    { intros p s. induction s as [|c s IH]; intros n Hn.
      - simpl in Hn. destruct p; [|discriminate].
        injection Hn as <-. constructor.
      - change (index 0 p (String c s))
          with (if prefix p (String c s) then Some 0
                else match index 0 p s with
                     | Some n => Some (S n)
                     | None => None
                     end) in Hn.
        destruct (prefix p (String c s)).
        + injection Hn as <-. apply Nat.le_0_l.
        + destruct (index 0 p s) as [m|]; [|discriminate].
          injection Hn as <-. simpl. apply le_n_S. apply IH. reflexivity. }
    apply (Hbound Ssr.ssr_outlet). exact Hidx.
  - intros p Hp.
    apply (index_correct2 0 pos Ssr.ssr_outlet template Hidx p);
      [apply Nat.le_0_l | exact Hp].
  - unfold Ssr.handler, Ssr.render_page, Ssr.and_then.
    rewrite Htemplate, Himport, Hrender, Hreplace. reflexivity.
Qed.

Lemma ssr_replaces_first_outlet_only_witness :
  exists before after,
    "<header><!--ssr-outlet--></header><main><!--ssr-outlet--></main>"
    = before ++ Ssr.ssr_outlet ++ after
    /\ String.length before = 8
    /\ Ssr.handler env_two_outlets "/x"
       = (Ssr.mkResponse 200 [("Content-Type", "text/html")]
            (before ++ "<a href='/x'>home</a>" ++ after), []).
Proof.
  destruct (ssr_replaces_first_outlet_only env_two_outlets "/x"
              "<header><!--ssr-outlet--></header><main><!--ssr-outlet--></main>"
              "<a href='/x'>home</a>" render_plain 8
              eq_refl eq_refl eq_refl eq_refl eq_refl)
    as (before & after & Hcut & Hlen & _ & Hrun).
  exists before, after. repeat split; assumption.
Defined.

Example ssr_second_outlet_is_kept :
  Ssr.handler env_two_outlets "/x"
  = (Ssr.mkResponse 200 [("Content-Type", "text/html")]
       "<header><a href='/x'>home</a></header><main><!--ssr-outlet--></main>",
     []).
Proof. reflexivity. Qed.

(** ** The sign-in form *)

(** X19. A submit with a blank email or a blank password (empty or white
    space only), in either mode, and a registration with a blank username,
    end before any provider call: the form shows the matching validation
    message, is not loading, and only [preventDefault] was called. *)
Theorem blank_fields_are_rejected_before_any_provider_call :
  (forall r f : AuthPage.Form,
     AuthPage.blank (AuthPage.email r) = true
     \/ AuthPage.blank (AuthPage.password r) = true ->
     AuthPage.error (AuthPage.handleSubmit r f)
     = "Email and password cannot be empty."
     /\ AuthPage.loading (AuthPage.handleSubmit r f) = false
     /\ AuthPage.log (AuthPage.handleSubmit r f)
        = (AuthPage.log f ++ [AuthPage.PreventDefault])%list
     /\ AuthPage.signupSuccess (AuthPage.handleSubmit r f)
        = AuthPage.signupSuccess f)
  /\
  (forall r f : AuthPage.Form,
     AuthPage.isLogin r = false ->
     AuthPage.blank (AuthPage.email r) = false ->
     AuthPage.blank (AuthPage.password r) = false ->
     AuthPage.blank (AuthPage.username r) = true ->
     AuthPage.error (AuthPage.handleSubmit r f) = "Username cannot be empty."
     /\ AuthPage.loading (AuthPage.handleSubmit r f) = false
     /\ AuthPage.log (AuthPage.handleSubmit r f)
        = (AuthPage.log f ++ [AuthPage.PreventDefault])%list
     /\ AuthPage.signupSuccess (AuthPage.handleSubmit r f)
        = AuthPage.signupSuccess f).
Proof.
  split.
  - intros r f Hblank.
    assert (Hor : AuthPage.blank (AuthPage.email r)
                  || AuthPage.blank (AuthPage.password r) = true).
    { destruct Hblank as [-> | ->]; [reflexivity | apply orb_true_r]. }
    unfold AuthPage.handleSubmit. rewrite Hor. repeat split.
  - intros r f Hmode Hemail Hpassword Hname.
    unfold AuthPage.handleSubmit.
    rewrite Hemail, Hpassword, Hmode, Hname. repeat split.
Qed.

Lemma blank_fields_are_rejected_before_any_provider_call_witness :
  AuthPage.error (AuthPage.handleSubmit form_blank_password
                    form_blank_password)
  = "Email and password cannot be empty."
  /\ AuthPage.error (AuthPage.handleSubmit form_register_blank_name
                       form_register_blank_name)
     = "Username cannot be empty."
  /\ AuthPage.log (AuthPage.handleSubmit form_register_blank_name
                     form_register_blank_name)
     = [AuthPage.PreventDefault].
Proof.
  destruct blank_fields_are_rejected_before_any_provider_call
    as [Hcredentials Hname].
  destruct (Hcredentials form_blank_password form_blank_password
              (or_intror eq_refl)) as (Herr & _).
  destruct (Hname form_register_blank_name form_register_blank_name
              eq_refl eq_refl eq_refl eq_refl) as (Herr' & _ & Hlog & _).
  repeat split; assumption.
Defined.

(** X20. A submit whose fields pass validation issues exactly one
    provider call, after [preventDefault]: sign-in with the email and
    password, or sign-up with email, password and username, each value as
    typed and not trimmed. While the call is pending the form is loading
    and shows no error. *)
Theorem valid_submit_sends_fields_as_typed :
  (forall r f : AuthPage.Form,
     AuthPage.isLogin r = true ->
     AuthPage.blank (AuthPage.email r) = false ->
     AuthPage.blank (AuthPage.password r) = false ->
     AuthPage.log (AuthPage.handleSubmit r f)
     = (AuthPage.log f
        ++ [AuthPage.PreventDefault;
            AuthPage.SignInWithPassword (AuthPage.email r)
              (AuthPage.password r)])%list
     /\ AuthPage.loading (AuthPage.handleSubmit r f) = true
     /\ AuthPage.error (AuthPage.handleSubmit r f) = "")
  /\
  (forall r f : AuthPage.Form,
     AuthPage.isLogin r = false ->
     AuthPage.blank (AuthPage.email r) = false ->
     AuthPage.blank (AuthPage.password r) = false ->
     AuthPage.blank (AuthPage.username r) = false ->
     AuthPage.log (AuthPage.handleSubmit r f)
     = (AuthPage.log f
        ++ [AuthPage.PreventDefault;
            AuthPage.SignUp (AuthPage.email r) (AuthPage.password r)
              (AuthPage.username r)])%list
     /\ AuthPage.loading (AuthPage.handleSubmit r f) = true
     /\ AuthPage.error (AuthPage.handleSubmit r f) = "").
Proof.
  split.
  - intros r f Hmode Hemail Hpassword.
    unfold AuthPage.handleSubmit. rewrite Hemail, Hpassword, Hmode.
    simpl. rewrite <- app_assoc. repeat split.
  - intros r f Hmode Hemail Hpassword Hname.
    unfold AuthPage.handleSubmit. rewrite Hemail, Hpassword, Hmode, Hname.
    simpl. rewrite <- app_assoc. repeat split.
Qed.

Lemma valid_submit_sends_fields_as_typed_witness :
  AuthPage.log (AuthPage.handleSubmit form_login_padded form_login_padded)
  = [AuthPage.PreventDefault;
     AuthPage.SignInWithPassword " ann@example.com " "secret"]
  /\ AuthPage.loading (AuthPage.handleSubmit form_login_padded
                         form_login_padded) = true.
Proof.
  destruct valid_submit_sends_fields_as_typed as [Hlogin _].
  destruct (Hlogin form_login_padded form_login_padded
              eq_refl eq_refl eq_refl) as (Hlog & Hloading & _).
  split; assumption.
Defined.

(** X21. A sign-in that was submitted and whose provider call returns: the
    form stops loading; it shows the provider's error message when the
    result carries an error and no message at all otherwise, whatever
    message it showed before the submit; the confirmation panel is not
    touched. *)
Theorem sign_in_result_shows_provider_error_or_nothing :
  forall (r f : AuthPage.Form) (response : AuthPage.AuthResponse),
    AuthPage.isLogin r = true ->
    AuthPage.blank (AuthPage.email r) = false ->
    AuthPage.blank (AuthPage.password r) = false ->
    exists f',
      AuthPage.handleSubmit_resume r (Fulfilled response)
        (AuthPage.handleSubmit r f) = AuthPage.Done f'
      /\ AuthPage.loading f' = false
      /\ AuthPage.error f'
         = match AuthPage.response_error response with
           | Some err => message err
           | None => ""
           end
      /\ AuthPage.signupSuccess f' = AuthPage.signupSuccess f
      /\ AuthPage.isLogin f' = AuthPage.isLogin f.
Proof.
  intros r f response Hmode Hemail Hpassword.
  unfold AuthPage.handleSubmit_resume, AuthPage.handleSubmit.
  rewrite Hemail, Hpassword, Hmode. simpl.
  destruct (AuthPage.response_error response) as [err|];
    (eexists; split; [reflexivity|]; repeat split).
Qed.

Lemma sign_in_result_shows_provider_error_or_nothing_witness :
  exists f',
    AuthPage.handleSubmit_resume form_login_padded
      (Fulfilled (AuthPage.mkAuthResponse None None
                    (Some (mkError "Invalid login credentials"))))
      (AuthPage.handleSubmit form_login_padded form_login_padded)
    = AuthPage.Done f'
    /\ AuthPage.loading f' = false
    /\ AuthPage.error f' = "Invalid login credentials".
Proof.
  destruct (sign_in_result_shows_provider_error_or_nothing
              form_login_padded form_login_padded
              (AuthPage.mkAuthResponse None None
                 (Some (mkError "Invalid login credentials")))
              eq_refl eq_refl eq_refl)
    as (f' & Hrun & Hloading & Herr & _).
  exists f'. repeat split; assumption.
Defined.

(** X22. A registration that was submitted and whose provider call
    returns: the form stops loading. The confirmation panel is switched on
    exactly when the result carries no error and a user, and either the
    user's identity list is present and empty or the result has no
    session. With an error the form shows the error's message and the
    panel stays off; without one it shows no message. *)
Theorem registration_confirms_only_unverified_signups :
  forall (r f : AuthPage.Form) (response : AuthPage.AuthResponse),
    AuthPage.isLogin r = false ->
    AuthPage.blank (AuthPage.email r) = false ->
    AuthPage.blank (AuthPage.password r) = false ->
    AuthPage.blank (AuthPage.username r) = false ->
    AuthPage.signupSuccess f = false ->
    exists f',
      AuthPage.handleSubmit_resume r (Fulfilled response)
        (AuthPage.handleSubmit r f) = AuthPage.Done f'
      /\ AuthPage.loading f' = false
      /\ (AuthPage.signupSuccess f' = true
          <-> AuthPage.response_error response = None
              /\ exists user,
                   AuthPage.data_user response = Some user
                   /\ (AuthPage.identities user = Some []
                       \/ AuthPage.data_session response = None))
      /\ AuthPage.error f'
         = match AuthPage.response_error response with
           | Some err => message err
           | None => ""
           end.
Proof.
  intros r f response Hmode Hemail Hpassword Hname Hpanel.
  unfold AuthPage.handleSubmit_resume, AuthPage.handleSubmit.
  rewrite Hemail, Hpassword, Hmode, Hname. simpl.
  destruct (AuthPage.response_error response) as [err|].
  - eexists. split; [reflexivity|]. simpl. split; [reflexivity|].
    split; [|reflexivity].
    rewrite Hpanel. split; [discriminate|]. intros [Habs _]. discriminate.
  - destruct (AuthPage.data_user response) as [user|].
    + destruct (AuthPage.identities user) as [[|identity rest]|] eqn:Hids.
      * eexists. split; [reflexivity|]. simpl. split; [reflexivity|].
        split; [|reflexivity].
        split; [|reflexivity]. intros _. split; [reflexivity|].
        exists user. split; [reflexivity|]. left. exact Hids.
      * destruct (AuthPage.data_session response) as [session|] eqn:Hsession;
          (eexists; split; [reflexivity|]; simpl; split; [reflexivity|];
           split; [|reflexivity]).
        -- rewrite Hpanel. split; [discriminate|].
           intros [_ (u & Hu & [Hempty|Hnone])].
           ++ injection Hu as <-. rewrite Hids in Hempty. discriminate.
           ++ discriminate.
        -- split; [|reflexivity]. intros _. split; [reflexivity|].
           exists user. split; [reflexivity|]. right. reflexivity.
      * destruct (AuthPage.data_session response) as [session|] eqn:Hsession;
          (eexists; split; [reflexivity|]; simpl; split; [reflexivity|];
           split; [|reflexivity]).
        -- rewrite Hpanel. split; [discriminate|].
           intros [_ (u & Hu & [Hempty|Hnone])].
           ++ injection Hu as <-. rewrite Hids in Hempty. discriminate.
           ++ discriminate.
        -- split; [|reflexivity]. intros _. split; [reflexivity|].
           exists user. split; [reflexivity|]. right. reflexivity.
    + eexists. split; [reflexivity|]. simpl. split; [reflexivity|].
      split; [|reflexivity].
      rewrite Hpanel. split; [discriminate|].
      intros [_ (u & Hu & _)]. discriminate.
Qed.

Lemma registration_confirms_only_unverified_signups_witness :
  exists f',
    AuthPage.handleSubmit_resume form_register (Fulfilled response_unconfirmed)
      (AuthPage.handleSubmit form_register form_register) = AuthPage.Done f'
    /\ AuthPage.loading f' = false
    /\ AuthPage.signupSuccess f' = true.
Proof.
  destruct (registration_confirms_only_unverified_signups
              form_register form_register response_unconfirmed
              eq_refl eq_refl eq_refl eq_refl eq_refl)
    as (f' & Hrun & Hloading & Hpanel & _).
  exists f'. split; [exact Hrun|]. split; [exact Hloading|].
  apply Hpanel. split; [reflexivity|].
  exists (AuthPage.mkAuthUser (Some ["email"])).
  split; [reflexivity | right; reflexivity].
Defined.

(** X23. If the provider call of a submit is rejected instead of
    returning a result, the handler's own promise is rejected at the
    [await] and nothing after it runs: the form is left loading, with no
    message and the confirmation panel as it was. *)
Theorem rejected_provider_call_leaves_form_loading :
  forall (r f : AuthPage.Form) (e : JsError),
    AuthPage.submits r = true ->
    exists f',
      AuthPage.handleSubmit_resume r (Rejected e) (AuthPage.handleSubmit r f)
      = AuthPage.Failed e f'
      /\ AuthPage.loading f' = true
      /\ AuthPage.error f' = ""
      /\ AuthPage.signupSuccess f' = AuthPage.signupSuccess f.
Proof.
  intros r f e Hsubmits.
  unfold AuthPage.submits in Hsubmits.
  apply andb_true_iff in Hsubmits as [Hcredentials Hmode].
  apply negb_true_iff in Hcredentials.
  exists (AuthPage.handleSubmit r f). split; [reflexivity|].
  unfold AuthPage.handleSubmit. rewrite Hcredentials.
  destruct (AuthPage.isLogin r); simpl in Hmode.
  - repeat split.
  - apply negb_true_iff in Hmode. rewrite Hmode. repeat split.
Qed.

Lemma rejected_provider_call_leaves_form_loading_witness :
  exists f',
    AuthPage.handleSubmit_resume form_register (Rejected network_down)
      (AuthPage.handleSubmit form_register form_register)
    = AuthPage.Failed network_down f'
    /\ AuthPage.loading f' = true.
Proof.
  destruct (rejected_provider_call_leaves_form_loading
              form_register form_register network_down eq_refl)
    as (f' & Hrun & Hloading & _).
  exists f'. split; assumption.
Defined.

(** X24. Google sign-in clears the message and issues one OAuth call for
    the provider [google] that redirects to the page origin. When the call
    returns an error the form shows [Google sign-in error: ] followed by
    the error's message, otherwise no message; the loading flag and the
    confirmation panel are never changed. *)
Theorem google_sign_in_shows_prefixed_error :
  forall (origin : string) (f : AuthPage.Form)
         (response : AuthPage.AuthResponse),
    AuthPage.log (AuthPage.handleGoogleSignIn origin f)
    = (AuthPage.log f ++ [AuthPage.SignInWithOAuth "google" origin])%list
    /\ exists f',
         AuthPage.handleGoogleSignIn_resume (Fulfilled response)
           (AuthPage.handleGoogleSignIn origin f) = AuthPage.Done f'
         /\ AuthPage.error f'
            = match AuthPage.response_error response with
              | Some err => "Google sign-in error: " ++ message err
              | None => ""
              end
         /\ AuthPage.loading f' = AuthPage.loading f
         /\ AuthPage.signupSuccess f' = AuthPage.signupSuccess f
         /\ AuthPage.log f'
            = (AuthPage.log f
               ++ [AuthPage.SignInWithOAuth "google" origin])%list.
Proof.
  intros origin f response. split; [reflexivity|].
  unfold AuthPage.handleGoogleSignIn_resume.
  destruct (AuthPage.response_error response) as [err|];
    (eexists; split; [reflexivity|]; repeat split).
Qed.

(** ** Logout and work still in flight *)

Lemma handleLogout_run (PATHS : Paths) (s : App) (error : option JsError) :
  exists s1,
    handleLogout PATHS (Fulfilled error) s = Ok tt s1
    /\ currentUser s1 = None
    /\ galleryAssets s1 = []
    /\ collectionAssets s1 = [].
Proof.
  unfold handleLogout, bind; simpl.
  destruct error as [e|]; simpl;
    (eexists; split; [reflexivity|]; repeat split).
Qed.

(** X25. A save whose remote write settles after the logout cannot bring
    anything back: on the list emptied by the logout, both the success
    branch and the failure branch leave the list empty. Both lists. *)
Theorem save_settling_after_logout_leaves_lists_empty :
  forall (PATHS : Paths) (s : App) (error : option JsError) (clock : Clock)
         (saveAsset : Settled GeneratedAsset.t)
         (saveAssetToCollection : Settled CollectionAsset.t),
    exists s1 s2 s3,
      handleLogout PATHS (Fulfilled error) s = Ok tt s1
      /\ handleAssetSaved_background clock saveAsset s1 = Ok tt s2
      /\ handleSaveToCollection_background clock saveAssetToCollection s2
         = Ok tt s3
      /\ currentUser s3 = None
      /\ galleryAssets s3 = []
      /\ collectionAssets s3 = [].
Proof.
  intros PATHS s error clock saveAsset saveAssetToCollection.
  destruct (handleLogout_run PATHS s error)
    as (s1 & Hout & Huser & Hgallery & Hcollection).
  exists s1.
  destruct saveAsset as [realAsset|e];
    destruct saveAssetToCollection as [realCollectionAsset|e'];
    (eexists; eexists; split; [exact Hout|];
     split; [reflexivity|]; split; [reflexivity|];
     simpl; rewrite ?Huser, ?Hgallery, ?Hcollection; repeat split).
Qed.

(** X26. A listing that was started before the logout and resolves after
    it fills the emptied list again while no user is signed in. If a
    session event for a user then arrives in a render that shows this
    non-empty list, the projector starts no listing for it, so the list
    keeps the assets of the earlier listing under the new current user. *)
Theorem listing_resolved_after_logout_survives_next_sign_in :
  forall (PATHS : Paths) (s : App) (error : option JsError)
         (first : GeneratedAsset.t) (others : list GeneratedAsset.t)
         (su : SessionUser.t) (response : ProfileResponse.t)
         (tourCompleted : option string),
    exists s1 s2 s3 effects,
      handleLogout PATHS (Fulfilled error) s = Ok tt s1
      /\ galleryAssets s1 = []
      /\ fetchGalleryAssets_resume (Fulfilled (first :: others)) s1 = Ok tt s2
      /\ currentUser s2 = None
      /\ galleryAssets s2 = first :: others
      /\ processSession PATHS s2 (Some (Session.mk (Some su)))
           (mkSessionEnv (Fulfilled response) (Fulfilled tourCompleted)) s2
         = Ok tt s3
      /\ trace s3 = (trace s2 ++ effects)%list
      /\ ~ In (Remote (GetAssetsForUser (SessionUser.id su))) effects
      /\ currentUser s3
         = Some (user_of_session su (ProfileResponse.data response))
      /\ galleryAssets s3 = first :: others.
Proof.
  intros PATHS s error first others su response tourCompleted.
  destruct (handleLogout_run PATHS s error)
    as (s1 & Hout & Huser1 & Hgallery1 & _).
  set (s2 := store_of (fetchGalleryAssets_resume
                         (Fulfilled (first :: others)) s1)).
  assert (Hres : fetchGalleryAssets_resume (Fulfilled (first :: others)) s1
                 = Ok tt s2) by reflexivity.
  assert (Huser2 : currentUser s2 = None) by exact Huser1.
  assert (Hgallery2 : galleryAssets s2 = first :: others) by reflexivity.
  destruct (processSession_signed_in_run PATHS s2 s2 su response
              tourCompleted)
    as (s3 & Hrun & Htrace & _ & Hgallery3 & _).
  destruct (processSession_projects_user PATHS s2 s2 su response
              tourCompleted) as (s3' & Hrun' & Huser3 & _).
  rewrite Hrun in Hrun'. injection Hrun' as <-.
  exists s1, s2, s3, (session_effects PATHS s2 su response tourCompleted).
  split; [exact Hout|]. split; [exact Hgallery1|].
  split; [exact Hres|]. split; [exact Huser2|].
  split; [exact Hgallery2|]. split; [exact Hrun|].
  split; [exact Htrace|].
  split; [|split; [exact Huser3 | rewrite Hgallery3; exact Hgallery2]].
  unfold session_effects.
  assert (Hskip : fetch_skipped (SessionUser.id su)
                    (List.length (galleryAssets s2)) false = true).
  { rewrite Hgallery2. unfold fetch_skipped. simpl. apply orb_true_r. }
  rewrite Hskip.
  destruct (ProfileResponse.error response);
    destruct (fetch_skipped (SessionUser.id su)
                (List.length (collectionAssets s2)) false);
    destruct (isPublicPath PATHS s2);
    destruct (truthy tourCompleted); simpl;
    intuition (try discriminate; try congruence).
Qed.
